(** * The admin panel of the leaderboard (admin.js)

    A shallow embedding of the browser-side admin panel: the module state
    (authentication flag, API key, competition state, the two timer handles),
    the part of the browser it drives (DOM elements, sessionStorage, interval
    and timeout timers, outgoing fetch requests, dialogs, console) and every
    function of admin.js as a state transformer.

    Asynchronous functions are cut at their [await]s.  The part that runs up
    to the first [await fetch(...)] is a transformer that registers the rest
    of the function as a pending continuation; the answer of the network is an
    event that resumes it.  [await response.json()] is a second such point.
    The browser runs one callback at a time, so an execution of the panel is a
    sequence of events, each handled by one transformer. *)

From Stdlib Require Import ZArith Lia Ascii String.
From Stdlib Require Import DecimalString DecimalFacts DecimalPos DecimalN DecimalZ.
From stdpp Require Import gmap strings list fin_maps.

Local Open Scope string_scope.
Local Open Scope Z_scope.

(** ** JavaScript values and string primitives *)

Module Js.

(** Truthiness of a string: only the empty string is falsy. *)
Definition truthy (s : string) : bool :=
  match s with
  | EmptyString => false
  | String _ _ => true
  end.

(** [|| 0] on a numeric JSON field: absent, null and 0 give 0. *)
Definition or_zero (o : option Z) : Z := from_option id 0 o.

(** [String.prototype.trim] on byte strings.  The white space removed is
    the ASCII part of the JavaScript set (TAB, LF, VT, FF, CR, SP); the
    non-ASCII spaces are outside the byte alphabet modelled here. *)
Fixpoint trimStart (s : string) : string :=
  match s with
  | EmptyString => EmptyString
  | String c r => if Ascii.is_space c then trimStart r else s
  end.

Definition trimEnd (s : string) : string :=
  String.rev (trimStart (String.rev s)).

Definition trim (s : string) : string := trimEnd (trimStart s).

(** [String(n)] for an integer-valued number. *)
Definition String_of_int (n : Z) : string :=
  NilZero.string_of_int (Z.to_int n).

(** The first [fill] characters of [pad] repeated for ever ([rest] is what
    is left of the current copy). *)
Fixpoint cycle (fill : nat) (pad rest : string) : string :=
  match fill with
  | O => EmptyString
  | S k =>
      match rest with
      | String c r => String c (cycle k pad r)
      | EmptyString =>
          match pad with
          | String c r => String c (cycle k pad r)
          | EmptyString => EmptyString
          end
      end
  end.

(** [s.padStart(targetLength, padString)]. *)
Definition padStart (targetLength : nat) (padString : string) (s : string)
  : string :=
  if (targetLength <=? String.length s)%nat then s
  else cycle (targetLength - String.length s) padString padString +:+ s.

(** Line feed, and the double quote of JSON text. *)
Definition LF : string := String "010"%char EmptyString.
Definition DQ : string := String "034"%char EmptyString.

(** [`${v}`] of a property that may be undefined. *)
Definition template (o : option string) : string :=
  from_option id "undefined" o.

End Js.

(** ** What the spec calls zero-padded *)

(** The value a string of decimal digits denotes ([None] when a character is
    not a digit). *)
Definition decimal_value (s : string) : option Z :=
  (fun d => Z.of_N (N.of_uint d)) <$> NilEmpty.uint_of_string s.

Definition leading_zero (s : string) : Prop :=
  exists r, s = String "0"%char r.

(** [s] is the decimal numeral of [n], filled with zeros on the left up to
    [width] characters and not beyond. *)
Definition zero_padded (width : nat) (n : Z) (s : string) : Prop :=
  (width <= String.length s)%nat
  /\ decimal_value s = Some n
  /\ ((width < String.length s)%nat -> ~ leading_zero s).

(** ** Configuration *)

Module CONFIG.
Definition API_BASE_URL : string :=
  "https://zyro-leaderboard-backend.vercel.app".
Definition STATUS_REFRESH_INTERVAL : Z := 30000.
Definition TIMER_UPDATE_INTERVAL : Z := 1000.
End CONFIG.

(** ** Data *)

Record CompetitionState := {
  isActive : bool;
  isEnded : bool;
  startTime : option string;
  endTime : option string;
  remainingSeconds : Z;
  durationDays : Z
}.

(** The [competition] object of a status answer, as far as the panel reads
    it.  The two flags are read for their truthiness; a time stamp is a string
    or null; the numeric fields may be absent. *)
Record CompetitionJson := {
  json_isActive : bool;
  json_isEnded : bool;
  json_startTime : option string;
  json_endTime : option string;
  json_remainingSeconds : option Z;
  json_durationDays : option Z
}.

(** A parsed answer body, as far as the panel reads it: [data.success]
    (truthiness), [data.message], [data.competition]. *)
Record Data := {
  success : bool;
  message : option string;
  competition : option CompetitionJson
}.

(** How [await fetch(...)] ends: the promise rejects, or resolves with a
    response of some HTTP status. *)
Inductive FetchResult :=
| NetworkError
| Response (status : Z).

Definition ok (status : Z) : bool := (200 <=? status) && (status <=? 299).

(** How [await response.json()] followed by the first property read ends:
    an exception (the body is not JSON, or it is JSON null and reading a
    property of it throws), or an object. *)
Inductive JsonResult :=
| JsonThrows
| JsonValue (data : Data).

Inductive Method := GET | POST.

Record Request := {
  url : string;
  method : Method;
  headers : list (string * string);
  body : option string
}.

(** The rest of an asynchronous function suspended at an [await]. *)
Inductive Continuation :=
| handleLogin_await_fetch
| verifyAuthentication_await_fetch
| handleStartCompetition_await_fetch (durationText : string)
| handleStartCompetition_await_json (durationText : string)
| handleResetCompetition_await_fetch
| handleResetCompetition_await_json
| fetchStatus_await_fetch
| fetchStatus_await_json.

(** Callbacks handed to [setInterval] and [setTimeout]. *)
Inductive Callback :=
| CbFetchStatus
| CbUpdateCountdown
| CbHideControlMessage.

Global Instance Callback_eq_dec : EqDecision Callback.
Proof. solve_decision. Defined.

(** A live browser timer: what it runs, its delay, whether it repeats, and
    the clock value from which it may fire next. *)
Record Timer := {
  callback : Callback;
  delay : Z;
  repeating : bool;
  due : Z
}.

(** The elements of the page the panel holds on to. *)
Module El.
Inductive id :=
| loginSection | adminControls | loginForm | adminPassword | loginError
| statusValue | startTime | endTime | countdown
| adminDays | adminHours | adminMinutes | adminSeconds
| start7DaysBtn | start14DaysBtn | start30DaysBtn
| resetBtn | logoutBtn | controlMessage.

Global Instance id_eq_dec : EqDecision id.
Proof. solve_decision. Defined.
End El.

Record Element := {
  textContent : string;
  classList : list string;
  disabled : bool;
  value : string
}.

(** ** The state of the panel and of the browser around it *)

Record World := {
  (* module state *)
  isAuthenticated : bool;
  adminApiKey : string;
  competitionState : CompetitionState;
  statusRefreshInterval : option positive;
  countdownInterval : option positive;
  (* browser *)
  elements : El.id -> Element;
  sessionStorage : gmap string string;
  timers : gmap positive Timer;
  nextTimerId : positive;
  clock : Z;
  requests : list Request;
  pending : gmap nat Continuation;
  dialogs : list string;
  console : list string
}.

Definition Cmd : Type := World -> World.

Definition andThen (c1 c2 : Cmd) : Cmd := fun w => c2 (c1 w).
Notation "c1 >>> c2" := (andThen c1 c2) (at level 61, left associativity).

Definition skip : Cmd := fun w => w.

Section Setters.
Variable w : World.

Definition set_isAuthenticated (v : bool) : World :=
  Build_World v (adminApiKey w) (competitionState w)
    (statusRefreshInterval w) (countdownInterval w) (elements w)
    (sessionStorage w) (timers w) (nextTimerId w) (clock w) (requests w)
    (pending w) (dialogs w) (console w).

Definition set_adminApiKey (v : string) : World :=
  Build_World (isAuthenticated w) v (competitionState w)
    (statusRefreshInterval w) (countdownInterval w) (elements w)
    (sessionStorage w) (timers w) (nextTimerId w) (clock w) (requests w)
    (pending w) (dialogs w) (console w).

Definition set_competitionState (v : CompetitionState) : World :=
  Build_World (isAuthenticated w) (adminApiKey w) v
    (statusRefreshInterval w) (countdownInterval w) (elements w)
    (sessionStorage w) (timers w) (nextTimerId w) (clock w) (requests w)
    (pending w) (dialogs w) (console w).

Definition set_statusRefreshInterval (v : option positive) : World :=
  Build_World (isAuthenticated w) (adminApiKey w) (competitionState w)
    v (countdownInterval w) (elements w)
    (sessionStorage w) (timers w) (nextTimerId w) (clock w) (requests w)
    (pending w) (dialogs w) (console w).

Definition set_countdownInterval (v : option positive) : World :=
  Build_World (isAuthenticated w) (adminApiKey w) (competitionState w)
    (statusRefreshInterval w) v (elements w)
    (sessionStorage w) (timers w) (nextTimerId w) (clock w) (requests w)
    (pending w) (dialogs w) (console w).

Definition set_elements (v : El.id -> Element) : World :=
  Build_World (isAuthenticated w) (adminApiKey w) (competitionState w)
    (statusRefreshInterval w) (countdownInterval w) v
    (sessionStorage w) (timers w) (nextTimerId w) (clock w) (requests w)
    (pending w) (dialogs w) (console w).

Definition set_sessionStorage (v : gmap string string) : World :=
  Build_World (isAuthenticated w) (adminApiKey w) (competitionState w)
    (statusRefreshInterval w) (countdownInterval w) (elements w)
    v (timers w) (nextTimerId w) (clock w) (requests w)
    (pending w) (dialogs w) (console w).

Definition set_timers (v : gmap positive Timer) : World :=
  Build_World (isAuthenticated w) (adminApiKey w) (competitionState w)
    (statusRefreshInterval w) (countdownInterval w) (elements w)
    (sessionStorage w) v (nextTimerId w) (clock w) (requests w)
    (pending w) (dialogs w) (console w).

Definition set_nextTimerId (v : positive) : World :=
  Build_World (isAuthenticated w) (adminApiKey w) (competitionState w)
    (statusRefreshInterval w) (countdownInterval w) (elements w)
    (sessionStorage w) (timers w) v (clock w) (requests w)
    (pending w) (dialogs w) (console w).

Definition set_clock (v : Z) : World :=
  Build_World (isAuthenticated w) (adminApiKey w) (competitionState w)
    (statusRefreshInterval w) (countdownInterval w) (elements w)
    (sessionStorage w) (timers w) (nextTimerId w) v (requests w)
    (pending w) (dialogs w) (console w).

Definition set_requests (v : list Request) : World :=
  Build_World (isAuthenticated w) (adminApiKey w) (competitionState w)
    (statusRefreshInterval w) (countdownInterval w) (elements w)
    (sessionStorage w) (timers w) (nextTimerId w) (clock w) v
    (pending w) (dialogs w) (console w).

Definition set_pending (v : gmap nat Continuation) : World :=
  Build_World (isAuthenticated w) (adminApiKey w) (competitionState w)
    (statusRefreshInterval w) (countdownInterval w) (elements w)
    (sessionStorage w) (timers w) (nextTimerId w) (clock w) (requests w)
    v (dialogs w) (console w).

Definition set_dialogs (v : list string) : World :=
  Build_World (isAuthenticated w) (adminApiKey w) (competitionState w)
    (statusRefreshInterval w) (countdownInterval w) (elements w)
    (sessionStorage w) (timers w) (nextTimerId w) (clock w) (requests w)
    (pending w) v (console w).

Definition set_console (v : list string) : World :=
  Build_World (isAuthenticated w) (adminApiKey w) (competitionState w)
    (statusRefreshInterval w) (countdownInterval w) (elements w)
    (sessionStorage w) (timers w) (nextTimerId w) (clock w) (requests w)
    (pending w) (dialogs w) v.
End Setters.

(** ** The browser *)

(** *** DOM *)

Definition with_textContent (s : string) (el : Element) : Element :=
  Build_Element s (classList el) (disabled el) (value el).
Definition with_classList (cs : list string) (el : Element) : Element :=
  Build_Element (textContent el) cs (disabled el) (value el).
Definition with_disabled (b : bool) (el : Element) : Element :=
  Build_Element (textContent el) (classList el) b (value el).
Definition with_value (v : string) (el : Element) : Element :=
  Build_Element (textContent el) (classList el) (disabled el) v.

Definition update_element (e : El.id) (f : Element -> Element) : Cmd :=
  fun w =>
    set_elements w
      (fun e' => if decide (e' = e) then f (elements w e') else elements w e').

(** [el.textContent = s] *)
Definition set_textContent (e : El.id) (s : string) : Cmd :=
  update_element e (with_textContent s).

(** [el.className = "c1 c2 ..."] *)
Definition set_className (e : El.id) (cs : list string) : Cmd :=
  update_element e (with_classList cs).

(** [el.classList.add(c)] *)
Definition classList_add (e : El.id) (c : string) : Cmd :=
  update_element e
    (fun el =>
       with_classList
         (if decide (c ∈ classList el) then classList el
          else classList el ++ [c]) el).

(** [el.classList.remove(c)] *)
Definition classList_remove (e : El.id) (c : string) : Cmd :=
  update_element e
    (fun el => with_classList (filter (fun x => x ≠ c) (classList el)) el).

(** [el.disabled = b] *)
Definition set_disabled (e : El.id) (b : bool) : Cmd :=
  update_element e (with_disabled b).

(** [el.value = v] *)
Definition set_value (e : El.id) (v : string) : Cmd :=
  update_element e (with_value v).

(** *** sessionStorage *)

Definition sessionStorage_setItem (k v : string) : Cmd :=
  fun w => set_sessionStorage w (<[k := v]> (sessionStorage w)).

Definition sessionStorage_removeItem (k : string) : Cmd :=
  fun w => set_sessionStorage w (delete k (sessionStorage w)).

(** *** Timers

    Handles are positive integers handed out in increasing order, so a handle
    stored in a variable is truthy.  A timer set at clock value [t] with
    delay [ms] may fire from [t + ms] on. *)

Definition new_timer (cb : Callback) (ms : Z) (rep : bool) (w : World)
  : positive * World :=
  let h := nextTimerId w in
  (h, set_nextTimerId
        (set_timers w (<[h := Build_Timer cb ms rep (clock w + ms)]> (timers w)))
        (Pos.succ h)).

Definition setInterval (cb : Callback) (ms : Z) : World -> positive * World :=
  new_timer cb ms true.

Definition setTimeout (cb : Callback) (ms : Z) : World -> positive * World :=
  new_timer cb ms false.

Definition clearInterval (h : positive) : Cmd :=
  fun w => set_timers w (delete h (timers w)).

(** *** Network, dialogs, console *)

(** [fetch(...)] followed by [await]: the request goes out and the rest of
    the caller waits for its answer under the request's number. *)
Definition fetch (r : Request) (k : Continuation) : Cmd :=
  fun w =>
    set_pending (set_requests w (requests w ++ [r]))
      (<[length (requests w) := k]> (pending w)).

(** [await response.json()]: the caller waits again, for the body. *)
Definition await_json (rid : nat) (k : Continuation) : Cmd :=
  fun w => set_pending w (<[rid := k]> (pending w)).

(** [confirm(text)]: the dialog is shown; its answer is an input. *)
Definition confirm (text : string) : Cmd :=
  fun w => set_dialogs w (dialogs w ++ [text]).

Definition console_log (text : string) : Cmd :=
  fun w => set_console w (console w ++ [text]).

Definition console_error (text : string) : Cmd := console_log text.

(** ** admin.js *)

Section Panel.

(** [new Date(iso).getTime()]: the instant in milliseconds, [None] for
    NaN (a string that is not a date). *)
Variable Date_getTime : string -> option Z.

(** [new Date(iso).toLocaleString('en-US', {...})]. *)
Variable Date_toLocaleString : string -> string.

Definition key_header (key : string) : string * string := ("X-API-Key", key).

Definition status_request (key : string) : Request :=
  {| url := CONFIG.API_BASE_URL +:+ "/api/admin/status";
     method := GET;
     headers := [key_header key];
     body := None |}.

Definition start_request (key : string) (durationDays : Z) : Request :=
  {| url := CONFIG.API_BASE_URL +:+ "/api/admin/start";
     method := POST;
     headers := [("Content-Type", "application/json"); key_header key];
     body := Some ("{" +:+ Js.DQ +:+ "durationDays" +:+ Js.DQ +:+ ":"
                   +:+ Js.String_of_int durationDays +:+ "}") |}.

Definition reset_request (key : string) : Request :=
  {| url := CONFIG.API_BASE_URL +:+ "/api/admin/reset";
     method := POST;
     headers := [key_header key];
     body := None |}.

(** *** UI helpers *)

Definition showLoginSection : Cmd :=
  classList_remove El.loginSection "hidden"
  >>> classList_add El.adminControls "hidden".

Definition showAdminControls : Cmd :=
  classList_add El.loginSection "hidden"
  >>> classList_remove El.adminControls "hidden"
  >>> classList_remove El.loginError "show".

Definition showLoginError (message : string) : Cmd :=
  set_textContent El.loginError message
  >>> classList_add El.loginError "show".

Definition showControlMessage (message type : string) : Cmd :=
  set_textContent El.controlMessage message
  >>> set_className El.controlMessage ["message"; "show"; type]
  >>> (fun w => snd (setTimeout CbHideControlMessage 5000 w)).

(** The callback of that timeout. *)
Definition hideControlMessage : Cmd :=
  classList_remove El.controlMessage "show".

(** *** Utility functions *)

Definition formatDateTime (isoString : option string) : string :=
  match isoString with
  | Some iso => if Js.truthy iso then Date_toLocaleString iso else "—"
  | None => "—"
  end.

(** *** Timers of the panel: stopping *)

Definition stopCountdown : Cmd :=
  fun w =>
    match countdownInterval w with
    | Some h => set_countdownInterval (clearInterval h w) None
    | None => w
    end.

Definition stopStatusRefresh : Cmd :=
  fun w =>
    match statusRefreshInterval w with
    | Some h => set_statusRefreshInterval (clearInterval h w) None
    | None => w
    end.

(** *** Fetch status, up to its first await *)

Definition fetchStatus : Cmd :=
  fun w =>
    if negb (isAuthenticated w) then w
    else fetch (status_request (adminApiKey w)) fetchStatus_await_fetch w.

(** *** Countdown timer

    Instants and distances are integers of milliseconds.  A time value of
    JavaScript is an integral double of magnitude below 2^53, where
    subtraction, [%] and [Math.floor] of a quotient by a positive integer are
    exact, so they are the operations of [Z]: [%] is [Z.rem] (the sign of the
    dividend) and [Math.floor(a / b)] is [a / b].  A date that does not parse
    makes every number derived from it NaN. *)

Definition pad2 (n : Z) : string := Js.padStart 2 "0" (Js.String_of_int n).

Definition updateCountdown : Cmd :=
  fun w =>
    let placeholder := set_textContent El.countdown "—" in
    match endTime (competitionState w) with
    | Some iso =>
        if negb (isActive (competitionState w)) || negb (Js.truthy iso)
        then placeholder w
        else
          let now := clock w in
          match Date_getTime iso with
          | Some end_ =>
              let distance := end_ - now in
              if distance <? 0 then
                (set_textContent El.adminDays "00"
                 >>> set_textContent El.adminHours "00"
                 >>> set_textContent El.adminMinutes "00"
                 >>> set_textContent El.adminSeconds "00"
                 >>> stopCountdown
                 >>> fetchStatus) w
              else
                let days := distance / (1000 * 60 * 60 * 24) in
                let hours :=
                  Z.rem distance (1000 * 60 * 60 * 24) / (1000 * 60 * 60) in
                let minutes :=
                  Z.rem distance (1000 * 60 * 60) / (1000 * 60) in
                let seconds := Z.rem distance (1000 * 60) / 1000 in
                (set_textContent El.adminDays (pad2 days)
                 >>> set_textContent El.adminHours (pad2 hours)
                 >>> set_textContent El.adminMinutes (pad2 minutes)
                 >>> set_textContent El.adminSeconds (pad2 seconds)
                 >>> (if (days =? 0) && (hours <? 24)
                      then classList_add El.countdown "ending"
                      else classList_remove El.countdown "ending")) w
          | None =>
              (* the distance is NaN: it is not below 0, every field is
                 NaN, and NaN === 0 is false *)
              (set_textContent El.adminDays "NaN"
               >>> set_textContent El.adminHours "NaN"
               >>> set_textContent El.adminMinutes "NaN"
               >>> set_textContent El.adminSeconds "NaN"
               >>> classList_remove El.countdown "ending") w
          end
    | None => placeholder w
    end.

Definition startCountdown : Cmd :=
  fun w =>
    let w1 := updateCountdown (stopCountdown w) in
    let (h, w2) :=
      setInterval CbUpdateCountdown CONFIG.TIMER_UPDATE_INTERVAL w1 in
    set_countdownInterval w2 (Some h).

(** *** Auto-refresh status *)

Definition startStatusRefresh : Cmd :=
  fun w =>
    let w1 := stopStatusRefresh w in
    let (h, w2) :=
      setInterval CbFetchStatus CONFIG.STATUS_REFRESH_INTERVAL w1 in
    set_statusRefreshInterval w2 (Some h).

(** *** Update UI *)

Definition updateStatusDisplay : Cmd :=
  fun w =>
    let cs := competitionState w in
    (set_className El.statusValue ["status-badge"]
     >>> (if isEnded cs then
            set_textContent El.statusValue "Ended"
            >>> classList_add El.statusValue "ended"
          else if isActive cs then
            let durationText :=
              if durationDays cs =? 7 then " (7 Days)"
              else if durationDays cs =? 14 then " (14 Days)"
              else if durationDays cs =? 30 then " (30 Days)"
              else "" in
            set_textContent El.statusValue ("Active" +:+ durationText)
            >>> classList_add El.statusValue "active"
          else
            set_textContent El.statusValue "Inactive"
            >>> classList_add El.statusValue "inactive")
     >>> set_textContent El.startTime
           (match startTime cs with
            | Some iso =>
                if Js.truthy iso then formatDateTime (startTime cs) else "—"
            | None => "—"
            end)
     >>> set_textContent El.endTime
           (match endTime cs with
            | Some iso =>
                if Js.truthy iso then formatDateTime (endTime cs) else "—"
            | None => "—"
            end)) w.

Definition updateButtonStates : Cmd :=
  fun w =>
    let cs := competitionState w in
    let isCompetitionActive := isActive cs && negb (isEnded cs) in
    (set_disabled El.start7DaysBtn isCompetitionActive
     >>> set_disabled El.start14DaysBtn isCompetitionActive
     >>> set_disabled El.start30DaysBtn isCompetitionActive
     >>> set_disabled El.resetBtn (negb (isActive cs) && negb (isEnded cs))) w.

(** *** Authentication *)

Definition handleLogout : Cmd :=
  (fun w => set_isAuthenticated w false)
  >>> (fun w => set_adminApiKey w "")
  >>> sessionStorage_removeItem "adminApiKey"
  >>> stopStatusRefresh
  >>> stopCountdown
  >>> showLoginSection
  >>> set_value El.adminPassword "".

(** [handleLogin] up to [await fetch]. *)
Definition handleLogin : Cmd :=
  fun w =>
    let password := Js.trim (value (elements w El.adminPassword)) in
    if negb (Js.truthy password) then showLoginError "Please enter a password" w
    else
      ((fun w => set_adminApiKey w password)
       >>> (fun w =>
              fetch (status_request (adminApiKey w)) handleLogin_await_fetch w))
        w.

(** [handleLogin] from the answer on. *)
Definition handleLogin_response (r : FetchResult) : Cmd :=
  match r with
  | Response status =>
      if ok status then
        (fun w => set_isAuthenticated w true)
        >>> (fun w => sessionStorage_setItem "adminApiKey" (adminApiKey w) w)
        >>> showAdminControls
        >>> fetchStatus
        >>> startStatusRefresh
      else if (status =? 401) || (status =? 403) then
        showLoginError "Invalid admin password"
      else
        showLoginError "Authentication failed. Please try again."
  | NetworkError =>
      console_error "Login error:"
      >>> showLoginError "Connection error. Is the backend running?"
  end.

(** [verifyAuthentication] up to [await fetch]. *)
Definition verifyAuthentication : Cmd :=
  fun w =>
    fetch (status_request (adminApiKey w)) verifyAuthentication_await_fetch w.

(** [verifyAuthentication] from the answer on. *)
Definition verifyAuthentication_response (r : FetchResult) : Cmd :=
  match r with
  | Response status =>
      if ok status then
        (fun w => set_isAuthenticated w true)
        >>> showAdminControls
        >>> fetchStatus
        >>> startStatusRefresh
      else
        (* Invalid stored key *)
        sessionStorage_removeItem "adminApiKey"
        >>> (fun w => set_adminApiKey w "")
  | NetworkError => console_error "Verification error:"
  end.

(** *** Competition controls *)

Definition durationText_of (durationDays : Z) : string :=
  if durationDays =? 7 then "1 week"
  else if durationDays =? 14 then "2 weeks"
  else if durationDays =? 30 then "1 month"
  else Js.String_of_int durationDays +:+ " days".

(** [handleStartCompetition] up to [await fetch]; [confirmed] is the answer
    to the dialog, when the dialog is reached. *)
Definition handleStartCompetition (durationDays : Z) (confirmed : bool) : Cmd :=
  fun w =>
    if negb (isAuthenticated w) then w
    else
      let durationText := durationText_of durationDays in
      let w :=
        confirm ("Start a new " +:+ durationText +:+ " competition?"
                 +:+ Js.LF +:+ Js.LF
                 +:+ "This will create a new competition timer for "
                 +:+ Js.String_of_int durationDays +:+ " days.") w in
      if negb confirmed then w
      else
        (set_disabled El.start7DaysBtn true
         >>> set_disabled El.start14DaysBtn true
         >>> set_disabled El.start30DaysBtn true
         >>> showControlMessage
               ("Starting " +:+ durationText +:+ " competition...") "info"
         >>> (fun w =>
                fetch (start_request (adminApiKey w) durationDays)
                  (handleStartCompetition_await_fetch durationText) w)) w.

(** The catch block of [handleStartCompetition]. *)
Definition handleStartCompetition_catch : Cmd :=
  console_error "Start error:"
  >>> showControlMessage
        "❌ Failed to start competition. Check console." "error"
  >>> updateButtonStates.

(** [handleStartCompetition] from the answer to [await response.json()]. *)
Definition handleStartCompetition_response
    (rid : nat) (durationText : string) (r : FetchResult) : Cmd :=
  match r with
  | Response _ =>
      await_json rid (handleStartCompetition_await_json durationText)
  | NetworkError => handleStartCompetition_catch
  end.

(** [handleStartCompetition] from the body on. *)
Definition handleStartCompetition_json
    (durationText : string) (j : JsonResult) : Cmd :=
  match j with
  | JsonValue data =>
      if success data then
        showControlMessage
          ("✅ " +:+ durationText +:+ " competition started successfully!")
          "success"
        >>> fetchStatus
      else
        showControlMessage ("❌ " +:+ Js.template (message data)) "error"
        >>> updateButtonStates
  | JsonThrows => handleStartCompetition_catch
  end.

(** [handleResetCompetition] up to [await fetch]. *)
Definition handleResetCompetition (confirmed : bool) : Cmd :=
  fun w =>
    if negb (isAuthenticated w) then w
    else
      let w :=
        confirm ("⚠️ WARNING: Reset the competition?" +:+ Js.LF +:+ Js.LF
                 +:+ "This will:" +:+ Js.LF
                 +:+ "- Stop the current competition" +:+ Js.LF
                 +:+ "- Clear all timer data" +:+ Js.LF
                 +:+ "- Reset the leaderboard" +:+ Js.LF +:+ Js.LF
                 +:+ "Are you sure?") w in
      if negb confirmed then w
      else
        (set_disabled El.resetBtn true
         >>> showControlMessage "Resetting competition..." "info"
         >>> (fun w =>
                fetch (reset_request (adminApiKey w))
                  handleResetCompetition_await_fetch w)) w.

(** The finally block of [handleResetCompetition]. *)
Definition handleResetCompetition_finally : Cmd :=
  set_disabled El.resetBtn false.

(** Its catch block, followed by the finally block. *)
Definition handleResetCompetition_catch : Cmd :=
  console_error "Reset error:"
  >>> showControlMessage
        "❌ Failed to reset competition. Check console." "error"
  >>> handleResetCompetition_finally.

Definition handleResetCompetition_response
    (rid : nat) (r : FetchResult) : Cmd :=
  match r with
  | Response _ => await_json rid handleResetCompetition_await_json
  | NetworkError => handleResetCompetition_catch
  end.

Definition handleResetCompetition_json (j : JsonResult) : Cmd :=
  match j with
  | JsonValue data =>
      (if success data then
         showControlMessage "✅ Competition reset successfully!" "success"
         >>> fetchStatus
       else
         showControlMessage ("❌ " +:+ Js.template (message data)) "error")
      >>> handleResetCompetition_finally
  | JsonThrows => handleResetCompetition_catch
  end.

(** *** Fetch status, from the answer on *)

Definition fetchStatus_catch : Cmd := console_error "Status fetch error:".

Definition fetchStatus_response (rid : nat) (r : FetchResult) : Cmd :=
  match r with
  | Response status =>
      if negb (ok status) then
        if (status =? 401) || (status =? 403) then
          (* Session expired *)
          handleLogout
        else
          (* throw new Error(...), caught below *)
          fetchStatus_catch
      else await_json rid fetchStatus_await_json
  | NetworkError => fetchStatus_catch
  end.

Definition competitionState_of (c : CompetitionJson) : CompetitionState :=
  {| isActive := json_isActive c;
     isEnded := json_isEnded c;
     startTime := json_startTime c;
     endTime := json_endTime c;
     remainingSeconds := Js.or_zero (json_remainingSeconds c);
     durationDays := Js.or_zero (json_durationDays c) |}.

Definition fetchStatus_json (j : JsonResult) : Cmd :=
  match j with
  | JsonValue data =>
      match competition data with
      | Some c =>
          if success data then
            (fun w => set_competitionState w (competitionState_of c))
            >>> updateStatusDisplay
            >>> (fun w =>
                   if isActive (competitionState w)
                      && negb (isEnded (competitionState w))
                   then startCountdown w
                   else stopCountdown w)
            >>> updateButtonStates
          else skip
      | None => skip
      end
  | JsonThrows => fetchStatus_catch
  end.

(** *** Initialization *)

(** The state the module starts from, on a page [page] with session
    storage [storage] at clock value [t0]. *)
Definition boot (page : El.id -> Element) (storage : gmap string string)
    (t0 : Z) : World :=
  {| isAuthenticated := false;
     adminApiKey := "";
     competitionState :=
       {| isActive := false; isEnded := false;
          startTime := None; endTime := None;
          remainingSeconds := 0; durationDays := 0 |};
     statusRefreshInterval := None;
     countdownInterval := None;
     elements := page;
     sessionStorage := storage;
     timers := ∅;
     nextTimerId := 1%positive;
     clock := t0;
     requests := [];
     pending := ∅;
     dialogs := [];
     console := [] |}.

(** [init]; the listeners it registers are the cases of [step] below. *)
Definition init : Cmd :=
  console_log "🔒 Admin panel initializing..."
  >>> (fun w =>
         match sessionStorage w !! "adminApiKey" with
         | Some savedKey =>
             if Js.truthy savedKey
             then verifyAuthentication (set_adminApiKey w savedKey)
             else w
         | None => w
         end)
  >>> console_log "✅ Admin panel ready".

(** *** Events *)

Inductive StartButton := Start7 | Start14 | Start30.

Definition button_of (b : StartButton) : El.id :=
  match b with
  | Start7 => El.start7DaysBtn
  | Start14 => El.start14DaysBtn
  | Start30 => El.start30DaysBtn
  end.

Definition days_of (b : StartButton) : Z :=
  match b with Start7 => 7 | Start14 => 14 | Start30 => 30 end.

Inductive Event :=
| Typed (text : string)                   (* the password field is edited *)
| Submit                                  (* the login form is submitted *)
| ClickStart (b : StartButton) (confirmed : bool)
| ClickReset (confirmed : bool)
| ClickLogout
| Elapse (ms : Z)                         (* time passes *)
| Fire (h : positive)                     (* a timer that is due runs *)
| Answer (rid : nat) (r : FetchResult)    (* a fetch promise settles *)
| Body (rid : nat) (j : JsonResult)       (* a json promise settles *)
| BeforeUnload.

Definition run_callback (cb : Callback) : Cmd :=
  match cb with
  | CbFetchStatus => fetchStatus
  | CbUpdateCountdown => updateCountdown
  | CbHideControlMessage => hideControlMessage
  end.

(** What firing does to the timer itself, before its callback runs. *)
Definition rearm (h : positive) (t : Timer) : Cmd :=
  fun w =>
    if repeating t then
      set_timers w
        (<[h := Build_Timer (callback t) (delay t) true (clock w + delay t)]>
           (timers w))
    else set_timers w (delete h (timers w)).

Definition take_pending (rid : nat) : Cmd :=
  fun w => set_pending w (delete rid (pending w)).

(** One event; [None] when the event cannot happen in [w]: a click on a
    disabled button, a timer that is not due, an answer nobody waits for. *)
Definition step (ev : Event) (w : World) : option World :=
  match ev with
  | Typed text => Some (set_value El.adminPassword text w)
  | Submit => Some (handleLogin w)
  | ClickStart b confirmed =>
      if disabled (elements w (button_of b)) then None
      else Some (handleStartCompetition (days_of b) confirmed w)
  | ClickReset confirmed =>
      if disabled (elements w El.resetBtn) then None
      else Some (handleResetCompetition confirmed w)
  | ClickLogout => Some (handleLogout w)
  | Elapse ms =>
      if ms <? 0 then None else Some (set_clock w (clock w + ms))
  | Fire h =>
      match timers w !! h with
      | Some t =>
          if due t <=? clock w
          then Some (run_callback (callback t) (rearm h t w))
          else None
      | None => None
      end
  | Answer rid r =>
      match pending w !! rid with
      | Some handleLogin_await_fetch =>
          Some (handleLogin_response r (take_pending rid w))
      | Some verifyAuthentication_await_fetch =>
          Some (verifyAuthentication_response r (take_pending rid w))
      | Some (handleStartCompetition_await_fetch durationText) =>
          Some (handleStartCompetition_response rid durationText r
                  (take_pending rid w))
      | Some handleResetCompetition_await_fetch =>
          Some (handleResetCompetition_response rid r (take_pending rid w))
      | Some fetchStatus_await_fetch =>
          Some (fetchStatus_response rid r (take_pending rid w))
      | _ => None
      end
  | Body rid j =>
      match pending w !! rid with
      | Some (handleStartCompetition_await_json durationText) =>
          Some (handleStartCompetition_json durationText j
                  (take_pending rid w))
      | Some handleResetCompetition_await_json =>
          Some (handleResetCompetition_json j (take_pending rid w))
      | Some fetchStatus_await_json =>
          Some (fetchStatus_json j (take_pending rid w))
      | _ => None
      end
  | BeforeUnload => Some ((stopStatusRefresh >>> stopCountdown) w)
  end.

Fixpoint run (evs : list Event) (w : World) : option World :=
  match evs with
  | [] => Some w
  | ev :: rest =>
      match step ev w with
      | Some w' => run rest w'
      | None => None
      end
  end.

(** The states the panel can be in. *)
Inductive reachable : World -> Prop :=
| reachable_init page storage t0 :
    reachable (init (boot page storage t0))
| reachable_step w ev w' :
    reachable w -> step ev w = Some w' -> reachable w'.

End Panel.

(** ** Notions the properties are stated with *)

(** *** Which part of the state a command may change *)

Inductive Field :=
| F_isAuthenticated | F_adminApiKey | F_competitionState
| F_statusRefreshInterval | F_countdownInterval
| F_elements | F_sessionStorage | F_timers | F_nextTimerId | F_clock
| F_requests | F_pending | F_dialogs | F_console.

Global Instance Field_eq_dec : EqDecision Field.
Proof. solve_decision. Defined.

Definition among (f : Field) (F : list Field) : bool := bool_decide (f ∈ F).

Definition covers (F G : list Field) : bool := forallb (fun f => among f G) F.

(** [w'] is [w] except for the fields listed in [F]. *)
Record agree_outside (F : list Field) (w w' : World) : Prop := {
  keep_isAuthenticated :
    among F_isAuthenticated F = false -> isAuthenticated w' = isAuthenticated w;
  keep_adminApiKey :
    among F_adminApiKey F = false -> adminApiKey w' = adminApiKey w;
  keep_competitionState :
    among F_competitionState F = false ->
    competitionState w' = competitionState w;
  keep_statusRefreshInterval :
    among F_statusRefreshInterval F = false ->
    statusRefreshInterval w' = statusRefreshInterval w;
  keep_countdownInterval :
    among F_countdownInterval F = false ->
    countdownInterval w' = countdownInterval w;
  keep_elements :
    among F_elements F = false -> elements w' = elements w;
  keep_sessionStorage :
    among F_sessionStorage F = false -> sessionStorage w' = sessionStorage w;
  keep_timers : among F_timers F = false -> timers w' = timers w;
  keep_nextTimerId :
    among F_nextTimerId F = false -> nextTimerId w' = nextTimerId w;
  keep_clock : among F_clock F = false -> clock w' = clock w;
  keep_requests : among F_requests F = false -> requests w' = requests w;
  keep_pending : among F_pending F = false -> pending w' = pending w;
  keep_dialogs : among F_dialogs F = false -> dialogs w' = dialogs w;
  keep_console : among F_console F = false -> console w' = console w
}.

Definition modifies (F : list Field) (c : Cmd) : Prop :=
  forall w, agree_outside F w (c w).

(** The footprint of a command that stays away from the timers. *)
Definition quiet : list Field :=
  [F_isAuthenticated; F_adminApiKey; F_competitionState; F_elements;
   F_sessionStorage; F_clock; F_requests; F_pending; F_dialogs; F_console].

(** *** Live timers *)

(** The live timers that run [cb]. *)
Definition live (cb : Callback) (w : World) : gmap positive Timer :=
  filter (fun p => callback p.2 = cb) (timers w).

Definition count_live (cb : Callback) (w : World) : nat := size (live cb w).

(** Every live timer has a handle already handed out; every live poll timer
    is the one [statusRefreshInterval] holds, every live countdown timer the
    one [countdownInterval] holds. *)
Record timers_inv (w : World) : Prop := {
  inv_fresh :
    forall h t, timers w !! h = Some t -> (h < nextTimerId w)%positive;
  inv_poll :
    forall h t, timers w !! h = Some t -> callback t = CbFetchStatus ->
                statusRefreshInterval w = Some h;
  inv_countdown :
    forall h t, timers w !! h = Some t -> callback t = CbUpdateCountdown ->
                countdownInterval w = Some h
}.

Definition preserves_inv (c : Cmd) : Prop :=
  forall w, timers_inv w -> timers_inv (c w).

(** *** The panel's states, as the spec names them *)

Definition hidden (w : World) (e : El.id) : Prop :=
  "hidden" ∈ classList (elements w e).

Definition shown_message (w : World) (e : El.id) (text : string) : Prop :=
  textContent (elements w e) = text /\ "show" ∈ classList (elements w e).

(** The credential is nowhere: not in the variable, not in the storage. *)
Definition credential_cleared (w : World) : Prop :=
  adminApiKey w = "" /\ sessionStorage w !! "adminApiKey" = None.

(** The four fields of the countdown, days first. *)
Definition countdown_fields (w : World) : list string :=
  [textContent (elements w El.adminDays);
   textContent (elements w El.adminHours);
   textContent (elements w El.adminMinutes);
   textContent (elements w El.adminSeconds)].

(** *** A page, a clock and a date parser to run the panel on *)

Definition blank : Element :=
  {| textContent := ""; classList := []; disabled := false; value := "" |}.

(** The page as it is served: the admin controls hidden. *)
Definition sample_page (e : El.id) : Element :=
  if decide (e = El.adminControls)
  then {| textContent := ""; classList := ["hidden"];
          disabled := false; value := "" |}
  else blank.

(** A parser that knows one date, 5000 seconds after the epoch. *)
Definition sample_getTime (iso : string) : option Z :=
  if decide (iso = "1970-01-01T01:23:20.000Z") then Some 5000000 else None.

Definition sample_toLocaleString (iso : string) : string := iso.

Definition sample_step : Event -> World -> option World :=
  step sample_getTime sample_toLocaleString.

Definition sample_run : list Event -> World -> option World :=
  run sample_getTime sample_toLocaleString.

(** A fresh tab at clock value 1000, nothing stored. *)
Definition fresh_tab : World := init (boot sample_page ∅ 1000).

(** A competition that is running and ends at the date [sample_getTime]
    knows. *)
Definition running : CompetitionJson :=
  {| json_isActive := true; json_isEnded := false;
     json_startTime := Some "1970-01-01T00:00:00.000Z";
     json_endTime := Some "1970-01-01T01:23:20.000Z";
     json_remainingSeconds := Some 4999;
     json_durationDays := Some 7 |}.

Definition status_of (c : CompetitionJson) : JsonResult :=
  JsonValue {| success := true; message := None; competition := Some c |}.

(** The administrator types the password and is let in: request 0 is the
    login, request 1 the status fetch that follows it, timer 1 the poller. *)
Definition log_in : list Event :=
  [Typed "secret"; Submit; Answer 0 (Response 200)].

(** The state the events [evs] lead to from [fresh_tab]; [fresh_tab] itself
    when one of them cannot happen. *)
Definition after (evs : list Event) : World :=
  default fresh_tab (sample_run evs fresh_tab).

(** A tab opened with a key left in sessionStorage: [init] sends request 0
    to check it. *)
Definition stored_tab : World :=
  init (boot sample_page {["adminApiKey" := "secret"]} 1000).

(** A body that refuses the action. *)
Definition rejected : JsonResult :=
  JsonValue {| success := false; message := Some "Unauthorized";
               competition := None |}.

(** Logged in, the start of a week confirmed, the server answers 401. *)
Definition start_rejected : list Event :=
  log_in ++ [ClickStart Start7 true; Answer 2 (Response 401); Body 2 rejected].

(** Logged in, a reset confirmed, the server answers 403. *)
Definition reset_rejected : list Event :=
  log_in ++ [ClickReset true; Answer 2 (Response 403); Body 2 rejected].

(** Logged in and shown a running competition: timer 2 is the countdown. *)
Definition watching : list Event :=
  log_in ++ [Answer 1 (Response 200); Body 1 (status_of running)].

(** The same, 5000 seconds later: the end time is one second in the past. *)
Definition expired : list Event := watching ++ [Elapse 5000000].

(** The administrator logs out while the first status fetch is on its way;
    its answer arrives afterwards and starts the countdown. *)
Definition logged_out_watching : list Event :=
  log_in ++ [ClickLogout; Answer 1 (Response 200); Body 1 (status_of running);
             Elapse 5000000].

(** The countdown expires while the server still reports the competition as
    running: the tick refetches (request 2), the answer restarts the
    countdown, which refetches at once (request 3) and again at its first
    tick (request 4). *)
Definition expired_but_running : list Event :=
  expired ++ [Fire 2%positive; Answer 2 (Response 200);
              Body 2 (status_of running); Elapse 1000; Fire 3%positive].

(** Every event of [evs] can happen, one after the other, from
    [fresh_tab]. *)
Definition happens (evs : list Event) : bool :=
  match sample_run evs fresh_tab with
  | Some _ => true
  | None => false
  end.

(** *** More notions, for the rest of the panel *)


(** A held handle names a live repeating timer that runs the right callback
    at the configured period. *)
Record handles_live (w : World) : Prop := {
  live_poll :
    forall h, statusRefreshInterval w = Some h ->
      exists t, timers w !! h = Some t
                /\ callback t = CbFetchStatus
                /\ delay t = CONFIG.STATUS_REFRESH_INTERVAL
                /\ repeating t = true;
  live_countdown :
    forall h, countdownInterval w = Some h ->
      exists t, timers w !! h = Some t
                /\ callback t = CbUpdateCountdown
                /\ delay t = CONFIG.TIMER_UPDATE_INTERVAL
                /\ repeating t = true
}.

(** The competition is running: active and not ended. *)
Definition is_running (cs : CompetitionState) : bool :=
  isActive cs && negb (isEnded cs).

(** The requests [c] sends are appended to the log and all satisfy [P]. *)
Definition sends_only (P : Request -> Prop) (c : Cmd) : Prop :=
  forall w, exists new,
    requests (c w) = (requests w ++ new)%list /\ Forall P new.

Definition is_status_request (r : Request) : Prop :=
  exists key, r = status_request key.

(** The text and the class of the status badge for a competition state. *)
Definition badge_text (cs : CompetitionState) : string :=
  if isEnded cs then "Ended"
  else if isActive cs then
    "Active" +:+ (if durationDays cs =? 7 then " (7 Days)"
                  else if durationDays cs =? 14 then " (14 Days)"
                  else if durationDays cs =? 30 then " (30 Days)"
                  else "")
  else "Inactive".

Definition badge_class (cs : CompetitionState) : string :=
  if isEnded cs then "ended"
  else if isActive cs then "active"
  else "inactive".

(** The poller is held only while the panel is authenticated. *)
Definition poller_needs_login (w : World) : Prop :=
  isAuthenticated w = false -> statusRefreshInterval w = None.

(** The countdown is held only while the competition is running. *)
Definition countdown_needs_running (w : World) : Prop :=
  countdownInterval w <> None -> is_running (competitionState w) = true.

Definition preserves_live (c : Cmd) : Prop :=
  forall w, timers_inv w -> handles_live w -> handles_live (c w).

(** The four buttons are what [updateButtonStates] makes of [cs]. *)
Definition buttons_follow (cs : CompetitionState) (w : World) : Prop :=
  (forall b : StartButton,
     disabled (elements w (button_of b)) = is_running cs)
  /\ disabled (elements w El.resetBtn)
     = negb (isActive cs) && negb (isEnded cs).

(** * Properties *)

(** ** Decimal numerals and padding *)

Lemma String_of_int_nonneg n :
  0 <= n ->
  Js.String_of_int n = NilEmpty.string_of_uint (N.to_uint (Z.to_N n)).
Proof.
  destruct n as [|p|p]; [reflexivity | intros _ | lia].
  unfold Js.String_of_int. simpl. unfold NilZero.string_of_uint.
  destruct (Pos.to_uint p) eqn:Hp; try reflexivity.
  by apply DecimalPos.Unsigned.to_uint_nonnil in Hp.
Qed.

Lemma length_string_of_uint d :
  String.length (NilEmpty.string_of_uint d) = Decimal.nb_digits d.
Proof. induction d; simpl; congruence. Qed.

Lemma to_uint_normal n : Decimal.unorm (N.to_uint n) = N.to_uint n.
Proof.
  rewrite <- DecimalN.Unsigned.to_of. by rewrite DecimalN.Unsigned.of_to.
Qed.

(** The numeral of a number starts with 0 only when it is 0 itself. *)
Lemma to_uint_leading_zero n r :
  NilEmpty.string_of_uint (N.to_uint n) = String "0"%char r -> r = "".
Proof.
  pose proof (to_uint_normal n) as Hnorm.
  destruct (N.to_uint n) as [|d| | | | | | | | |]; simpl; try discriminate.
  intros [= <-]. rewrite unorm_D0 in Hnorm.
  destruct d; try reflexivity;
    match type of Hnorm with
    | Decimal.unorm ?u = _ =>
        assert (Hne : u <> Decimal.Nil) by discriminate;
        pose proof (nb_digits_unorm u Hne) as Hle;
        rewrite Hnorm in Hle; simpl in Hle; lia
    end.
Qed.

Lemma decimal_value_String_of_int n :
  0 <= n -> decimal_value (Js.String_of_int n) = Some n.
Proof.
  intros Hn. unfold decimal_value.
  rewrite String_of_int_nonneg, NilEmpty.usu by done. simpl.
  by rewrite DecimalN.Unsigned.of_to, Z2N.id.
Qed.

Lemma decimal_value_zero s :
  decimal_value (String "0"%char s) = decimal_value s.
Proof.
  unfold decimal_value. simpl. by destruct (NilEmpty.uint_of_string s).
Qed.

Lemma String_of_int_nonempty n : 0 <= n -> Js.String_of_int n <> "".
Proof.
  intros Hn Hs. rewrite String_of_int_nonneg in Hs by done.
  pose proof (to_uint_normal (Z.to_N n)) as Hnorm.
  destruct (N.to_uint (Z.to_N n)); try discriminate Hs.
  by apply unorm_nonnil in Hnorm.
Qed.

Lemma pad2_zero_padded n : 0 <= n -> zero_padded 2 n (pad2 n).
Proof.
  intros Hn.
  pose proof (decimal_value_String_of_int n Hn) as Hv.
  pose proof (String_of_int_nonempty n Hn) as Hne.
  assert (Hlz : forall r, Js.String_of_int n = String "0"%char r -> r = "").
  { intros r. rewrite String_of_int_nonneg by done.
    apply to_uint_leading_zero. }
  unfold pad2, Js.padStart.
  destruct (Js.String_of_int n) as [|c [|c' s]] eqn:Hs; [done| |].
  - change (zero_padded 2 n (String "0"%char (String c ""))).
    split; [done|split; [|simpl; lia]].
    by rewrite decimal_value_zero.
  - change (zero_padded 2 n (String c (String c' s))).
    split; [simpl; lia|split; [done|]].
    intros _ [r Hr]. injection Hr as -> <-. by specialize (Hlz _ eq_refl).
Qed.

(** Below 100 the padded numeral has exactly two characters. *)
Lemma pad2_length_checked :
  forallb (fun k => (String.length (pad2 (Z.of_nat k)) =? 2)%nat)
    (List.seq 0 100) = true.
Proof. vm_compute. reflexivity. Qed.

Lemma pad2_length n : 0 <= n < 100 -> String.length (pad2 n) = 2%nat.
Proof.
  intros Hn. pose proof pad2_length_checked as Hall.
  rewrite forallb_forall in Hall. specialize (Hall (Z.to_nat n)).
  rewrite Z2Nat.id in Hall by lia. apply Nat.eqb_eq, Hall, in_seq. lia.
Qed.

(** ** Splitting milliseconds into days, hours, minutes and seconds *)

Lemma split_distance D :
  0 <= D ->
  let days := D / 86400000 in
  let hours := Z.rem D 86400000 / 3600000 in
  let minutes := Z.rem D 3600000 / 60000 in
  let seconds := Z.rem D 60000 / 1000 in
  days * 86400 + hours * 3600 + minutes * 60 + seconds = D / 1000
  /\ 0 <= days /\ 0 <= hours < 24 /\ 0 <= minutes < 60 /\ 0 <= seconds < 60.
Proof.
  intros HD. cbv zeta. rewrite !Z.rem_mod_nonneg by lia.
  Z.to_euclidean_division_equations. lia.
Qed.

Lemma no_whole_day (D : Z) : 0 <= D -> D / 86400000 = 0 -> D < 86400000.
Proof. intros HD Hq. Z.to_euclidean_division_equations. lia. Qed.

Section Properties.

Variable Date_getTime : string -> option Z.
Variable Date_toLocaleString : string -> string.

Lemma ok_spec (status : Z) : ok status = true <-> 200 <= status <= 299.
Proof. unfold ok. rewrite andb_true_iff, !Z.leb_le. tauto. Qed.

Lemma not_ok_spec (status : Z) :
  ok status = false <-> ~ (200 <= status <= 299).
Proof. rewrite <- ok_spec. destruct (ok status); intuition congruence. Qed.

(** ** Frames *)

Lemma agree_refl F w : agree_outside F w w.
Proof. by constructor. Qed.

Lemma agree_trans F w1 w2 w3 :
  agree_outside F w1 w2 -> agree_outside F w2 w3 -> agree_outside F w1 w3.
Proof.
  intros H1 H2. constructor; intros Hout; destruct H1, H2;
    repeat match goal with
           | H : among ?f F = false -> _, Hf : among ?f F = false |- _ =>
               specialize (H Hf)
           end; congruence.
Qed.

Lemma covers_out F G f :
  covers F G = true -> among f G = false -> among f F = false.
Proof.
  unfold covers. rewrite forallb_forall. intros Hall Hout.
  destruct (among f F) eqn:Hin; [|done].
  apply bool_decide_eq_true_1, list_elem_of_In, Hall in Hin. congruence.
Qed.

Lemma agree_mono F G w w' :
  covers F G = true -> agree_outside F w w' -> agree_outside G w w'.
Proof.
  intros Hc []. constructor; intros Hout;
    apply (covers_out _ _ _ Hc) in Hout; auto.
Qed.

Lemma modifies_skip F : modifies F skip.
Proof. intros w. apply agree_refl. Qed.

Lemma modifies_seq F c1 c2 :
  modifies F c1 -> modifies F c2 -> modifies F (c1 >>> c2).
Proof. intros H1 H2 w. eapply agree_trans; [apply H1 | apply H2]. Qed.

Lemma modifies_mono F G c :
  modifies F c -> covers F G = true -> modifies G c.
Proof. intros H Hc w. eapply agree_mono; [exact Hc | apply H]. Qed.

(** A state built from [w] by setters agrees with [w] outside the fields
    set. *)
Ltac by_fields :=
  constructor; intros Hout;
  first [reflexivity | vm_compute in Hout; discriminate Hout].

Lemma modifies_update_element e f : modifies [F_elements] (update_element e f).
Proof. intros w. by_fields. Qed.

Lemma modifies_set_textContent e s : modifies [F_elements] (set_textContent e s).
Proof. apply modifies_update_element. Qed.

Lemma modifies_set_className e cs : modifies [F_elements] (set_className e cs).
Proof. apply modifies_update_element. Qed.

Lemma modifies_classList_add e c : modifies [F_elements] (classList_add e c).
Proof. apply modifies_update_element. Qed.

Lemma modifies_classList_remove e c :
  modifies [F_elements] (classList_remove e c).
Proof. apply modifies_update_element. Qed.

Lemma modifies_set_disabled e b : modifies [F_elements] (set_disabled e b).
Proof. apply modifies_update_element. Qed.

Lemma modifies_set_value e v : modifies [F_elements] (set_value e v).
Proof. apply modifies_update_element. Qed.

Lemma modifies_setItem k (v : World -> string) :
  modifies [F_sessionStorage] (fun w => sessionStorage_setItem k (v w) w).
Proof. intros w. by_fields. Qed.

Lemma modifies_removeItem k :
  modifies [F_sessionStorage] (sessionStorage_removeItem k).
Proof. intros w. by_fields. Qed.

Lemma modifies_clearInterval h : modifies [F_timers] (clearInterval h).
Proof. intros w. by_fields. Qed.

Lemma modifies_new_timer cb ms rep :
  modifies [F_timers; F_nextTimerId] (fun w => snd (new_timer cb ms rep w)).
Proof. intros w. by_fields. Qed.

Lemma modifies_setTimeout cb ms :
  modifies [F_timers; F_nextTimerId] (fun w => snd (setTimeout cb ms w)).
Proof. apply modifies_new_timer. Qed.

Lemma modifies_fetch (r : World -> Request) k :
  modifies [F_requests; F_pending] (fun w => fetch (r w) k w).
Proof. intros w. by_fields. Qed.

Lemma modifies_await_json rid k : modifies [F_pending] (await_json rid k).
Proof. intros w. by_fields. Qed.

Lemma modifies_take_pending rid : modifies [F_pending] (take_pending rid).
Proof. intros w. by_fields. Qed.

Lemma modifies_confirm text : modifies [F_dialogs] (confirm text).
Proof. intros w. by_fields. Qed.

Lemma modifies_console_log text : modifies [F_console] (console_log text).
Proof. intros w. by_fields. Qed.

Lemma modifies_console_error text : modifies [F_console] (console_error text).
Proof. intros w. by_fields. Qed.

Lemma modifies_set_isAuthenticated v :
  modifies [F_isAuthenticated] (fun w => set_isAuthenticated w v).
Proof. intros w. by_fields. Qed.

Lemma modifies_set_adminApiKey v :
  modifies [F_adminApiKey] (fun w => set_adminApiKey w v).
Proof. intros w. by_fields. Qed.

Lemma modifies_set_competitionState v :
  modifies [F_competitionState] (fun w => set_competitionState w v).
Proof. intros w. by_fields. Qed.

Lemma modifies_set_clock (v : World -> Z) :
  modifies [F_clock] (fun w => set_clock w (v w)).
Proof. intros w. by_fields. Qed.

Create HintDb frame discriminated.

#[local] Hint Resolve
  modifies_update_element modifies_set_textContent modifies_set_className
  modifies_classList_add modifies_classList_remove modifies_set_disabled
  modifies_set_value modifies_setItem modifies_removeItem
  modifies_clearInterval modifies_setTimeout modifies_fetch
  modifies_await_json modifies_take_pending modifies_confirm
  modifies_console_log modifies_console_error modifies_set_isAuthenticated
  modifies_set_adminApiKey modifies_set_competitionState : frame.

(** Footprint of a composed command from the footprints of its parts. *)
Ltac frame :=
  lazymatch goal with
  | |- modifies _ (_ >>> _) => apply modifies_seq; frame
  | |- modifies _ skip => apply modifies_skip
  | |- modifies _ (if ?b then _ else _) => destruct b; frame
  | |- modifies _ (match ?x with Some _ => _ | None => _ end) =>
      destruct x; frame
  | |- modifies _ _ =>
      eapply modifies_mono; [solve [eauto with frame] | reflexivity]
  | |- agree_outside _ ?w ?w => apply agree_refl
  | |- agree_outside _ ?w (?c ?w) =>
      let H := fresh in
      enough (H : modifies _ c) by (exact (H w)); frame
  end.

Lemma modifies_showLoginSection : modifies [F_elements] showLoginSection.
Proof. unfold showLoginSection. frame. Qed.

Lemma modifies_showAdminControls : modifies [F_elements] showAdminControls.
Proof. unfold showAdminControls. frame. Qed.

Lemma modifies_showLoginError text : modifies [F_elements] (showLoginError text).
Proof. unfold showLoginError. frame. Qed.

Lemma modifies_showControlMessage text type :
  modifies [F_elements; F_timers; F_nextTimerId] (showControlMessage text type).
Proof. unfold showControlMessage. frame. Qed.

Lemma modifies_hideControlMessage : modifies [F_elements] hideControlMessage.
Proof. unfold hideControlMessage. frame. Qed.

Lemma modifies_stopCountdown :
  modifies [F_timers; F_countdownInterval] stopCountdown.
Proof.
  intros w. unfold stopCountdown.
  destruct (countdownInterval w); [by_fields | apply agree_refl].
Qed.

Lemma modifies_stopStatusRefresh :
  modifies [F_timers; F_statusRefreshInterval] stopStatusRefresh.
Proof.
  intros w. unfold stopStatusRefresh.
  destruct (statusRefreshInterval w); [by_fields | apply agree_refl].
Qed.

Lemma modifies_fetchStatus : modifies [F_requests; F_pending] fetchStatus.
Proof.
  intros w. unfold fetchStatus.
  destruct (negb (isAuthenticated w)); [apply agree_refl | by_fields].
Qed.

#[local] Hint Resolve
  modifies_showLoginSection modifies_showAdminControls modifies_showLoginError
  modifies_showControlMessage modifies_hideControlMessage
  modifies_stopCountdown modifies_stopStatusRefresh modifies_fetchStatus
  : frame.

Lemma modifies_updateCountdown :
  modifies [F_elements; F_timers; F_countdownInterval; F_requests; F_pending]
    (updateCountdown Date_getTime).
Proof.
  intros w. unfold updateCountdown.
  destruct (endTime (competitionState w)) as [iso|]; [|frame].
  destruct (negb _ || negb _); [frame|].
  destruct (Date_getTime iso) as [end_|]; [|frame].
  destruct (_ <? 0); frame.
Qed.

#[local] Hint Resolve modifies_updateCountdown : frame.

Lemma modifies_startCountdown :
  modifies
    [F_elements; F_timers; F_nextTimerId; F_countdownInterval;
     F_requests; F_pending]
    (startCountdown Date_getTime).
Proof.
  intros w. unfold startCountdown.
  eapply agree_trans with (w2 := stopCountdown w); [frame|].
  eapply agree_trans with (w2 := updateCountdown Date_getTime (stopCountdown w));
    [frame|].
  by_fields.
Qed.

Lemma modifies_startStatusRefresh :
  modifies [F_timers; F_nextTimerId; F_statusRefreshInterval] startStatusRefresh.
Proof.
  intros w. unfold startStatusRefresh.
  eapply agree_trans with (w2 := stopStatusRefresh w); [frame|].
  by_fields.
Qed.

Lemma modifies_updateStatusDisplay :
  modifies [F_elements] (updateStatusDisplay Date_toLocaleString).
Proof.
  intros w. unfold updateStatusDisplay. cbv zeta.
  destruct (isEnded (competitionState w)); [frame|].
  destruct (isActive (competitionState w)); frame.
Qed.

Lemma modifies_updateButtonStates : modifies [F_elements] updateButtonStates.
Proof. intros w. unfold updateButtonStates. cbv zeta. frame. Qed.

#[local] Hint Resolve
  modifies_startCountdown modifies_startStatusRefresh
  modifies_updateStatusDisplay modifies_updateButtonStates : frame.

Lemma modifies_handleLogout :
  modifies
    [F_isAuthenticated; F_adminApiKey; F_sessionStorage; F_timers;
     F_statusRefreshInterval; F_countdownInterval; F_elements]
    handleLogout.
Proof. unfold handleLogout. frame. Qed.

#[local] Hint Resolve modifies_handleLogout : frame.

(** ** Elements *)

Lemma update_element_same e f w :
  elements (update_element e f w) e = f (elements w e).
Proof. unfold update_element. simpl. by rewrite decide_True. Qed.

Lemma update_element_other e e' f w :
  e' <> e -> elements (update_element e f w) e' = elements w e'.
Proof. intros Hne. unfold update_element. simpl. by rewrite decide_False. Qed.

Lemma set_disabled_same e b w : disabled (elements (set_disabled e b w) e) = b.
Proof. unfold set_disabled. by rewrite update_element_same. Qed.

Lemma showControlMessage_other text type e w :
  e <> El.controlMessage ->
  elements (showControlMessage text type w) e = elements w e.
Proof.
  intros Hne. destruct e; first [reflexivity | by destruct Hne].
Qed.

Lemma updateButtonStates_start w b :
  disabled (elements (updateButtonStates w) (button_of b))
  = isActive (competitionState w) && negb (isEnded (competitionState w)).
Proof. by destruct b. Qed.

Lemma updateButtonStates_reset w :
  disabled (elements (updateButtonStates w) El.resetBtn)
  = negb (isActive (competitionState w)) && negb (isEnded (competitionState w)).
Proof. reflexivity. Qed.

(** ** Calls made while not authenticated *)

(** C10: while [isAuthenticated] is false, [handleStartCompetition],
    [handleResetCompetition] and [fetchStatus] return at once: the whole
    state (module variables, page, timers, requests sent, dialogs shown) is
    what it was. *)
Theorem unauthenticated_calls_do_nothing
    (w : World) (durationDays : Z) (confirmed : bool) :
  isAuthenticated w = false ->
  handleStartCompetition durationDays confirmed w = w
  /\ handleResetCompetition confirmed w = w
  /\ fetchStatus w = w.
Proof.
  intros Hout.
  unfold handleStartCompetition, handleResetCompetition, fetchStatus.
  rewrite Hout. simpl. auto.
Qed.

(** ** Buttons after a status update *)

Lemma fetchStatus_json_applied w data c :
  competition data = Some c -> success data = true ->
  exists w1,
    fetchStatus_json Date_getTime Date_toLocaleString (JsonValue data) w
    = updateButtonStates w1
    /\ competitionState w1 = competitionState_of c.
Proof.
  intros Hc Hs. unfold fetchStatus_json. rewrite Hc, Hs. unfold andThen.
  eexists. split; [reflexivity|].
  match goal with
  | |- context [if ?b then _ else _] => destruct b
  end.
  - rewrite (keep_competitionState _ _ _ (modifies_startCountdown _)) by done.
    by rewrite (keep_competitionState _ _ _ (modifies_updateStatusDisplay _)).
  - rewrite (keep_competitionState _ _ _ (modifies_stopCountdown _)) by done.
    by rewrite (keep_competitionState _ _ _ (modifies_updateStatusDisplay _)).
Qed.

(** C3: when a status answer is applied (a body with [success] and a
    [competition]), the new competition state is the one of the answer, each
    of the three start buttons is disabled exactly when that state has
    [isActive && !isEnded], and the reset button is disabled exactly when it
    has [!isActive && !isEnded]. *)
Theorem buttons_after_status_update
    (w : World) (data : Data) (c : CompetitionJson) :
  competition data = Some c ->
  success data = true ->
  let w' :=
    fetchStatus_json Date_getTime Date_toLocaleString (JsonValue data) w in
  competitionState w' = competitionState_of c
  /\ (forall b : StartButton,
        disabled (elements w' (button_of b)) = true
        <-> json_isActive c && negb (json_isEnded c) = true)
  /\ (disabled (elements w' El.resetBtn) = true
      <-> negb (json_isActive c) && negb (json_isEnded c) = true).
Proof.
  intros Hc Hs w'.
  destruct (fetchStatus_json_applied w data c Hc Hs) as (w1 & Hw' & Hw1).
  fold w' in Hw'. rewrite Hw'. split; [|split].
  - by rewrite (keep_competitionState _ _ _ (modifies_updateButtonStates _)).
  - intros b. by rewrite updateButtonStates_start, Hw1.
  - by rewrite updateButtonStates_reset, Hw1.
Qed.

(** ** Timers: stopping, starting, and the invariant *)

Lemma stopCountdown_handle w : countdownInterval (stopCountdown w) = None.
Proof.
  unfold stopCountdown. by destruct (countdownInterval w) eqn:Hh.
Qed.

Lemma stopStatusRefresh_handle w :
  statusRefreshInterval (stopStatusRefresh w) = None.
Proof.
  unfold stopStatusRefresh. by destruct (statusRefreshInterval w) eqn:Hh.
Qed.

Lemma stopCountdown_timers w :
  timers (stopCountdown w)
  = match countdownInterval w with
    | Some h => delete h (timers w)
    | None => timers w
    end.
Proof. unfold stopCountdown. by destruct (countdownInterval w). Qed.

Lemma stopStatusRefresh_timers w :
  timers (stopStatusRefresh w)
  = match statusRefreshInterval w with
    | Some h => delete h (timers w)
    | None => timers w
    end.
Proof. unfold stopStatusRefresh. by destruct (statusRefreshInterval w). Qed.

Lemma fetchStatus_requests w :
  requests (fetchStatus w)
  = if isAuthenticated w
    then (requests w ++ [status_request (adminApiKey w)])%list
    else requests w.
Proof. unfold fetchStatus. by destruct (isAuthenticated w). Qed.

(** A tick leaves the countdown handle alone or clears it. *)
Lemma updateCountdown_handle w :
  countdownInterval (updateCountdown Date_getTime w) = countdownInterval w
  \/ countdownInterval (updateCountdown Date_getTime w) = None.
Proof.
  unfold updateCountdown.
  destruct (endTime (competitionState w)) as [iso|]; [|by left].
  destruct (negb _ || negb _); [by left|].
  destruct (Date_getTime iso) as [end_|]; [|by left].
  destruct (_ <? 0);
    [right | left; apply (keep_countdownInterval [F_elements]); [frame|done]].
  unfold andThen.
  rewrite (keep_countdownInterval _ _ _ (modifies_fetchStatus _)) by done.
  apply stopCountdown_handle.
Qed.

Lemma agree_quiet_inv w w' :
  agree_outside quiet w w' -> timers_inv w -> timers_inv w'.
Proof.
  intros Hq [Hf Hp Hc].
  pose proof (keep_timers _ _ _ Hq eq_refl) as Ht.
  pose proof (keep_nextTimerId _ _ _ Hq eq_refl) as Hn.
  pose proof (keep_statusRefreshInterval _ _ _ Hq eq_refl) as Hs.
  pose proof (keep_countdownInterval _ _ _ Hq eq_refl) as Hd.
  constructor; rewrite Ht, ?Hn, ?Hs, ?Hd; assumption.
Qed.

Lemma preserves_inv_quiet c : modifies quiet c -> preserves_inv c.
Proof. intros H w. apply agree_quiet_inv, H. Qed.

Lemma preserves_inv_seq c1 c2 :
  preserves_inv c1 -> preserves_inv c2 -> preserves_inv (c1 >>> c2).
Proof. intros H1 H2 w Hw. apply H2, H1, Hw. Qed.

(** A new timer that neither polls nor counts down. *)
Lemma preserves_inv_setTimeout ms :
  preserves_inv (fun w => snd (setTimeout CbHideControlMessage ms w)).
Proof.
  intros w [Hf Hp Hc]. constructor; simpl; intros h t;
    rewrite lookup_insert; case_decide as Hh; intros Ht; simplify_eq; simpl;
    try done; eauto.
  - lia.
  - specialize (Hf _ _ Ht). lia.
Qed.

Lemma preserves_inv_stopCountdown : preserves_inv stopCountdown.
Proof.
  intros w Hw. unfold stopCountdown.
  destruct (countdownInterval w) as [h0|] eqn:Hh; [|exact Hw].
  destruct Hw as [Hf Hp Hc].
  constructor; simpl; intros h t Ht;
    apply lookup_delete_Some in Ht as [Hne Ht]; eauto.
  intros Hcb. specialize (Hc _ _ Ht Hcb). congruence.
Qed.

Lemma preserves_inv_stopStatusRefresh : preserves_inv stopStatusRefresh.
Proof.
  intros w Hw. unfold stopStatusRefresh.
  destruct (statusRefreshInterval w) as [h0|] eqn:Hh; [|exact Hw].
  destruct Hw as [Hf Hp Hc].
  constructor; simpl; intros h t Ht;
    apply lookup_delete_Some in Ht as [Hne Ht]; eauto.
  intros Hcb. specialize (Hp _ _ Ht Hcb). congruence.
Qed.

Lemma preserves_inv_showControlMessage text type :
  preserves_inv (showControlMessage text type).
Proof.
  unfold showControlMessage. apply preserves_inv_seq.
  - apply preserves_inv_quiet. frame.
  - apply preserves_inv_setTimeout.
Qed.

Lemma preserves_inv_updateCountdown :
  preserves_inv (updateCountdown Date_getTime).
Proof.
  intros w Hw. unfold updateCountdown.
  destruct (endTime (competitionState w)) as [iso|];
    [|by apply preserves_inv_quiet; [frame|]].
  destruct (negb _ || negb _); [by apply preserves_inv_quiet; [frame|]|].
  destruct (Date_getTime iso) as [end_|];
    [|by apply preserves_inv_quiet; [frame|]].
  destruct (_ <? 0); [|by apply preserves_inv_quiet; [frame|]].
  revert w Hw. repeat apply preserves_inv_seq;
    first [ apply preserves_inv_stopCountdown
          | apply preserves_inv_quiet; frame ].
Qed.

(** Handing out the next handle to a poller or a countdown when none is
    held. *)
Lemma inv_new_poll w ms :
  timers_inv w -> statusRefreshInterval w = None ->
  let (h, w') := setInterval CbFetchStatus ms w in
  timers_inv (set_statusRefreshInterval w' (Some h)).
Proof.
  intros [Hf Hp Hc] Hnone. constructor; simpl; intros h t;
    rewrite lookup_insert; case_decide as Hh; intros Ht; simplify_eq; simpl;
    try done; eauto.
  - lia.
  - specialize (Hf _ _ Ht). lia.
  - intros Hcb. specialize (Hp _ _ Ht Hcb). congruence.
Qed.

Lemma inv_new_countdown w ms :
  timers_inv w -> countdownInterval w = None ->
  let (h, w') := setInterval CbUpdateCountdown ms w in
  timers_inv (set_countdownInterval w' (Some h)).
Proof.
  intros [Hf Hp Hc] Hnone. constructor; simpl; intros h t;
    rewrite lookup_insert; case_decide as Hh; intros Ht; simplify_eq; simpl;
    try done; eauto.
  - lia.
  - specialize (Hf _ _ Ht). lia.
  - intros Hcb. specialize (Hc _ _ Ht Hcb). congruence.
Qed.

Lemma preserves_inv_startStatusRefresh : preserves_inv startStatusRefresh.
Proof.
  intros w Hw. unfold startStatusRefresh.
  apply (inv_new_poll (stopStatusRefresh w)).
  - by apply preserves_inv_stopStatusRefresh.
  - apply stopStatusRefresh_handle.
Qed.

Lemma preserves_inv_startCountdown :
  preserves_inv (startCountdown Date_getTime).
Proof.
  intros w Hw. unfold startCountdown.
  apply (inv_new_countdown (updateCountdown Date_getTime (stopCountdown w))).
  - by apply preserves_inv_updateCountdown, preserves_inv_stopCountdown.
  - destruct (updateCountdown_handle (stopCountdown w)) as [-> | ->];
      [apply stopCountdown_handle | done].
Qed.

Lemma preserves_inv_rearm w h t :
  timers w !! h = Some t -> timers_inv w -> timers_inv (rearm h t w).
Proof.
  intros Hh [Hf Hp Hc]. unfold rearm. destruct (repeating t).
  - constructor; simpl; intros h' t';
      rewrite lookup_insert; case_decide as Hd; intros Ht; simplify_eq; simpl;
      eauto.
  - constructor; simpl; intros h' t' Ht;
      apply lookup_delete_Some in Ht as [Hne Ht]; eauto.
Qed.

Lemma preserves_inv_cond (b : World -> bool) c1 c2 :
  preserves_inv c1 -> preserves_inv c2 ->
  preserves_inv (fun w => if b w then c1 w else c2 w).
Proof. intros H1 H2 w Hw. destruct (b w); auto. Qed.

Create HintDb inv discriminated.

#[local] Hint Resolve
  preserves_inv_stopCountdown preserves_inv_stopStatusRefresh
  preserves_inv_showControlMessage preserves_inv_updateCountdown
  preserves_inv_startStatusRefresh preserves_inv_startCountdown : inv.

(** The invariant through a composed command. *)
Ltac inv_tac :=
  lazymatch goal with
  | |- preserves_inv (_ >>> _) => apply preserves_inv_seq; inv_tac
  | |- preserves_inv (if ?b then _ else _) => destruct b; inv_tac
  | |- preserves_inv (match ?x with Some _ => _ | None => _ end) =>
      destruct x; inv_tac
  | |- preserves_inv _ =>
      first [solve [eauto with inv] | apply preserves_inv_quiet; frame]
  | |- timers_inv (?c ?w) =>
      let H := fresh in
      enough (H : preserves_inv c) by (apply H; assumption); inv_tac
  end.

Lemma preserves_inv_handleLogout : preserves_inv handleLogout.
Proof. unfold handleLogout. inv_tac. Qed.

Lemma preserves_inv_handleLogin : preserves_inv handleLogin.
Proof. intros w Hw. unfold handleLogin. destruct (negb _); inv_tac. Qed.

Lemma preserves_inv_handleLogin_response r :
  preserves_inv (handleLogin_response r).
Proof. unfold handleLogin_response. destruct r as [|status]; inv_tac. Qed.

Lemma preserves_inv_verifyAuthentication : preserves_inv verifyAuthentication.
Proof. unfold verifyAuthentication. inv_tac. Qed.

Lemma preserves_inv_verifyAuthentication_response r :
  preserves_inv (verifyAuthentication_response r).
Proof. unfold verifyAuthentication_response. destruct r as [|status]; inv_tac. Qed.

Lemma preserves_inv_updateButtonStates : preserves_inv updateButtonStates.
Proof. apply preserves_inv_quiet. frame. Qed.

#[local] Hint Resolve preserves_inv_handleLogout preserves_inv_updateButtonStates
  : inv.

Lemma preserves_inv_handleStartCompetition durationDays confirmed :
  preserves_inv (handleStartCompetition durationDays confirmed).
Proof.
  intros w Hw. unfold handleStartCompetition.
  destruct (negb (isAuthenticated w)); [done|]. cbv zeta.
  destruct (negb confirmed); [inv_tac|].
  match goal with
  | |- timers_inv (?c (confirm ?text w)) =>
      apply (preserves_inv_seq (confirm text) c); [inv_tac | inv_tac | done]
  end.
Qed.

Lemma preserves_inv_handleStartCompetition_catch :
  preserves_inv handleStartCompetition_catch.
Proof. unfold handleStartCompetition_catch. inv_tac. Qed.

#[local] Hint Resolve preserves_inv_handleStartCompetition_catch : inv.

Lemma preserves_inv_handleStartCompetition_response rid durationText r :
  preserves_inv (handleStartCompetition_response rid durationText r).
Proof. unfold handleStartCompetition_response. destruct r; inv_tac. Qed.

Lemma preserves_inv_handleStartCompetition_json durationText j :
  preserves_inv (handleStartCompetition_json durationText j).
Proof.
  unfold handleStartCompetition_json. destruct j as [|data]; inv_tac.
Qed.

Lemma preserves_inv_handleResetCompetition confirmed :
  preserves_inv (handleResetCompetition confirmed).
Proof.
  intros w Hw. unfold handleResetCompetition.
  destruct (negb (isAuthenticated w)); [done|]. cbv zeta.
  destruct (negb confirmed); [inv_tac|].
  match goal with
  | |- timers_inv (?c (confirm ?text w)) =>
      apply (preserves_inv_seq (confirm text) c); [inv_tac | inv_tac | done]
  end.
Qed.

Lemma preserves_inv_handleResetCompetition_catch :
  preserves_inv handleResetCompetition_catch.
Proof.
  unfold handleResetCompetition_catch, handleResetCompetition_finally. inv_tac.
Qed.

#[local] Hint Resolve preserves_inv_handleResetCompetition_catch : inv.

Lemma preserves_inv_handleResetCompetition_response rid r :
  preserves_inv (handleResetCompetition_response rid r).
Proof. unfold handleResetCompetition_response. destruct r; inv_tac. Qed.

Lemma preserves_inv_handleResetCompetition_json j :
  preserves_inv (handleResetCompetition_json j).
Proof.
  unfold handleResetCompetition_json, handleResetCompetition_finally.
  destruct j as [|data]; inv_tac.
Qed.

Lemma preserves_inv_fetchStatus_response rid r :
  preserves_inv (fetchStatus_response rid r).
Proof.
  unfold fetchStatus_response, fetchStatus_catch.
  destruct r as [|status]; inv_tac.
Qed.

Lemma preserves_inv_fetchStatus_json j :
  preserves_inv (fetchStatus_json Date_getTime Date_toLocaleString j).
Proof.
  unfold fetchStatus_json, fetchStatus_catch.
  destruct j as [|data]; [inv_tac|].
  destruct (competition data) as [c|]; [|inv_tac].
  destruct (success data); [|inv_tac].
  apply preserves_inv_seq; [|inv_tac].
  apply preserves_inv_seq; [inv_tac|].
  apply (preserves_inv_cond
           (fun w => isActive (competitionState w)
                     && negb (isEnded (competitionState w))));
    inv_tac.
Qed.

Lemma preserves_inv_run_callback cb :
  preserves_inv (run_callback Date_getTime cb).
Proof. destruct cb; simpl; inv_tac. Qed.

Lemma timers_inv_init page storage t0 : timers_inv (init (boot page storage t0)).
Proof.
  assert (Hboot : timers_inv (boot page storage t0)).
  { constructor; intros h t Ht; unfold boot in Ht; cbn [timers] in Ht;
      by rewrite lookup_empty in Ht. }
  revert Hboot. generalize (boot page storage t0). unfold init.
  apply preserves_inv_seq; [|inv_tac].
  apply preserves_inv_seq; [inv_tac|].
  intros w Hw. destruct (sessionStorage w !! "adminApiKey") as [k|]; [|done].
  destruct (Js.truthy k); [|done].
  apply preserves_inv_verifyAuthentication.
  apply (preserves_inv_quiet (fun w => set_adminApiKey w k)); [frame | exact Hw].
Qed.

Lemma step_preserves_inv ev w w' :
  step Date_getTime Date_toLocaleString ev w = Some w' ->
  timers_inv w -> timers_inv w'.
Proof.
  intros Hstep Hw. destruct ev; cbn [step] in Hstep.
  - simplify_eq. inv_tac.
  - simplify_eq. by apply preserves_inv_handleLogin.
  - destruct (disabled _); simplify_eq.
    by apply preserves_inv_handleStartCompetition.
  - destruct (disabled _); simplify_eq.
    by apply preserves_inv_handleResetCompetition.
  - simplify_eq. by apply preserves_inv_handleLogout.
  - destruct (_ <? 0); simplify_eq.
    apply (preserves_inv_quiet (fun w => set_clock w (clock w + ms)));
      [|exact Hw].
    apply (modifies_mono [F_clock]); [|done].
    apply (modifies_set_clock (fun w => clock w + ms)).
  - destruct (timers w !! h) as [t|] eqn:Ht; [|done].
    destruct (due t <=? clock w); simplify_eq.
    by apply preserves_inv_run_callback, preserves_inv_rearm.
  - assert (Htake : timers_inv (take_pending rid w)) by inv_tac.
    destruct (pending w !! rid) as [[]|]; simplify_eq.
    + by apply preserves_inv_handleLogin_response.
    + by apply preserves_inv_verifyAuthentication_response.
    + by apply preserves_inv_handleStartCompetition_response.
    + by apply preserves_inv_handleResetCompetition_response.
    + by apply preserves_inv_fetchStatus_response.
  - assert (Htake : timers_inv (take_pending rid w)) by inv_tac.
    destruct (pending w !! rid) as [[]|]; simplify_eq.
    + by apply preserves_inv_handleStartCompetition_json.
    + by apply preserves_inv_handleResetCompetition_json.
    + by apply preserves_inv_fetchStatus_json.
  - simplify_eq. inv_tac.
Qed.

Lemma reachable_timers_inv w :
  reachable Date_getTime Date_toLocaleString w -> timers_inv w.
Proof.
  induction 1 as [page storage t0 | w ev w' _ IH Hstep].
  - apply timers_inv_init.
  - by apply (step_preserves_inv ev w w').
Qed.

(** ** Counting live timers *)

Lemma size_filter_none (m : gmap positive Timer) cb :
  (forall h t, m !! h = Some t -> callback t <> cb) ->
  size (filter (fun p => callback p.2 = cb) m) = 0%nat.
Proof.
  intros Hno. apply map_size_empty_iff, map_empty. intros h.
  apply map_lookup_filter_None. right. intros t Ht Hcb. by apply (Hno h t).
Qed.

Lemma size_filter_one (m : gmap positive Timer) cb h t :
  m !! h = Some t -> callback t = cb ->
  (forall h' t', m !! h' = Some t' -> callback t' = cb -> h' = h) ->
  size (filter (fun p => callback p.2 = cb) m) = 1%nat.
Proof.
  intros Hh Hcb Honly.
  assert (filter (fun p => callback p.2 = cb) m = {[h := t]}) as ->;
    [|apply map_size_singleton].
  apply map_eq. intros i. destruct (decide (i = h)) as [->|Hne].
  - rewrite lookup_singleton_eq. by apply map_lookup_filter_Some.
  - rewrite lookup_singleton_ne by done. apply map_lookup_filter_None.
    right. intros t' Ht' Hcb'. simpl in Hcb'. apply Hne. eauto.
Qed.

Lemma size_filter_le_1 (m : gmap positive Timer) cb (o : option positive) :
  (forall h t, m !! h = Some t -> callback t = cb -> o = Some h) ->
  (size (filter (fun p => callback p.2 = cb) m) <= 1)%nat.
Proof.
  intros Hheld.
  destruct o as [h|];
    [| rewrite size_filter_none; [lia|];
       intros h t Ht Hcb; by specialize (Hheld _ _ Ht Hcb)].
  destruct (m !! h) as [t|] eqn:Hh.
  - destruct (decide (callback t = cb)) as [Hcb|Hcb].
    + rewrite (size_filter_one m cb h t); [lia|done..|].
      intros h' t' Ht' Hcb'. specialize (Hheld _ _ Ht' Hcb'). congruence.
    + rewrite size_filter_none; [lia|].
      intros h' t' Ht' Hcb'. specialize (Hheld _ _ Ht' Hcb'). congruence.
  - rewrite size_filter_none; [lia|].
    intros h' t' Ht' Hcb'. specialize (Hheld _ _ Ht' Hcb'). congruence.
Qed.

Lemma count_live_poll_le w : timers_inv w -> (count_live CbFetchStatus w <= 1)%nat.
Proof.
  intros [_ Hp _]. apply (size_filter_le_1 _ _ (statusRefreshInterval w)), Hp.
Qed.

Lemma count_live_countdown_le w :
  timers_inv w -> (count_live CbUpdateCountdown w <= 1)%nat.
Proof.
  intros [_ _ Hc]. apply (size_filter_le_1 _ _ (countdownInterval w)), Hc.
Qed.

Lemma count_live_poll_none w :
  timers_inv w -> statusRefreshInterval w = None ->
  count_live CbFetchStatus w = 0%nat.
Proof.
  intros [_ Hp _] Hnone. apply size_filter_none.
  intros h t Ht Hcb. specialize (Hp _ _ Ht Hcb). congruence.
Qed.

Lemma count_live_countdown_none w :
  timers_inv w -> countdownInterval w = None ->
  count_live CbUpdateCountdown w = 0%nat.
Proof.
  intros [_ _ Hc] Hnone. apply size_filter_none.
  intros h t Ht Hcb. specialize (Hc _ _ Ht Hcb). congruence.
Qed.

Lemma count_live_poll_held w h t :
  timers_inv w -> statusRefreshInterval w = Some h ->
  timers w !! h = Some t -> callback t = CbFetchStatus ->
  count_live CbFetchStatus w = 1%nat.
Proof.
  intros [_ Hp _] Hheld Hh Hcb. apply (size_filter_one _ _ h t); [done..|].
  intros h' t' Ht' Hcb'. specialize (Hp _ _ Ht' Hcb'). congruence.
Qed.

Lemma count_live_countdown_held w h t :
  timers_inv w -> countdownInterval w = Some h ->
  timers w !! h = Some t -> callback t = CbUpdateCountdown ->
  count_live CbUpdateCountdown w = 1%nat.
Proof.
  intros [_ _ Hc] Hheld Hh Hcb. apply (size_filter_one _ _ h t); [done..|].
  intros h' t' Ht' Hcb'. specialize (Hc _ _ Ht' Hcb'). congruence.
Qed.

(** What starting leaves behind: the handle is the next one the browser had
    to give, and the timer under it runs the callback at the configured
    period, first one period from now. *)
Lemma startStatusRefresh_spec w :
  statusRefreshInterval (startStatusRefresh w) = Some (nextTimerId w)
  /\ timers (startStatusRefresh w) !! nextTimerId w
     = Some {| callback := CbFetchStatus;
               delay := CONFIG.STATUS_REFRESH_INTERVAL;
               repeating := true;
               due := clock w + CONFIG.STATUS_REFRESH_INTERVAL |}.
Proof.
  unfold startStatusRefresh. simpl.
  rewrite (keep_nextTimerId _ _ _ (modifies_stopStatusRefresh w)) by done.
  rewrite (keep_clock _ _ _ (modifies_stopStatusRefresh w)) by done.
  split; [done | apply lookup_insert_eq].
Qed.

Lemma startCountdown_spec w :
  countdownInterval (startCountdown Date_getTime w) = Some (nextTimerId w)
  /\ timers (startCountdown Date_getTime w) !! nextTimerId w
     = Some {| callback := CbUpdateCountdown;
               delay := CONFIG.TIMER_UPDATE_INTERVAL;
               repeating := true;
               due := clock w + CONFIG.TIMER_UPDATE_INTERVAL |}.
Proof.
  unfold startCountdown. simpl.
  rewrite (keep_nextTimerId _ _ _ (modifies_updateCountdown _)) by done.
  rewrite (keep_clock _ _ _ (modifies_updateCountdown _)) by done.
  rewrite (keep_nextTimerId _ _ _ (modifies_stopCountdown w)) by done.
  rewrite (keep_clock _ _ _ (modifies_stopCountdown w)) by done.
  split; [done | apply lookup_insert_eq].
Qed.

Lemma count_live_startStatusRefresh w :
  timers_inv w -> count_live CbFetchStatus (startStatusRefresh w) = 1%nat.
Proof.
  intros Hw. destruct (startStatusRefresh_spec w) as [Hh Ht].
  eapply count_live_poll_held; eauto.
  by apply preserves_inv_startStatusRefresh.
Qed.

Lemma count_live_startCountdown w :
  timers_inv w ->
  count_live CbUpdateCountdown (startCountdown Date_getTime w) = 1%nat.
Proof.
  intros Hw. destruct (startCountdown_spec w) as [Hh Ht].
  eapply count_live_countdown_held; eauto.
  by apply preserves_inv_startCountdown.
Qed.

(** C9: in every state the panel can reach there is at most one live poll
    timer and at most one live countdown timer.  Starting the poller, or the
    countdown, leaves exactly one live timer of its kind, also when it is
    started again on top of a running one; stopping leaves none and the
    handle null. *)
Theorem single_timer_of_each_kind (w : World) :
  reachable Date_getTime Date_toLocaleString w ->
  ((count_live CbFetchStatus w <= 1)%nat
   /\ (count_live CbUpdateCountdown w <= 1)%nat)
  /\ (count_live CbFetchStatus (startStatusRefresh w) = 1%nat
      /\ count_live CbFetchStatus (startStatusRefresh (startStatusRefresh w))
         = 1%nat)
  /\ (count_live CbUpdateCountdown (startCountdown Date_getTime w) = 1%nat
      /\ count_live CbUpdateCountdown
           (startCountdown Date_getTime (startCountdown Date_getTime w))
         = 1%nat)
  /\ (statusRefreshInterval (stopStatusRefresh w) = None
      /\ count_live CbFetchStatus (stopStatusRefresh w) = 0%nat)
  /\ (countdownInterval (stopCountdown w) = None
      /\ count_live CbUpdateCountdown (stopCountdown w) = 0%nat).
Proof.
  intros Hw. apply reachable_timers_inv in Hw.
  repeat split.
  - by apply count_live_poll_le.
  - by apply count_live_countdown_le.
  - by apply count_live_startStatusRefresh.
  - by apply count_live_startStatusRefresh, preserves_inv_startStatusRefresh.
  - by apply count_live_startCountdown.
  - by apply count_live_startCountdown, preserves_inv_startCountdown.
  - apply stopStatusRefresh_handle.
  - apply count_live_poll_none;
      [by apply preserves_inv_stopStatusRefresh | apply stopStatusRefresh_handle].
  - apply stopCountdown_handle.
  - apply count_live_countdown_none;
      [by apply preserves_inv_stopCountdown | apply stopCountdown_handle].
Qed.

(** ** Reading a field through the commands that leave it alone *)

Ltac peel K :=
  repeat first
    [ rewrite (K _ _ _ (modifies_set_textContent _ _ _)) by done
    | rewrite (K _ _ _ (modifies_set_className _ _ _)) by done
    | rewrite (K _ _ _ (modifies_classList_add _ _ _)) by done
    | rewrite (K _ _ _ (modifies_classList_remove _ _ _)) by done
    | rewrite (K _ _ _ (modifies_set_disabled _ _ _)) by done
    | rewrite (K _ _ _ (modifies_set_value _ _ _)) by done
    | rewrite (K _ _ _ (modifies_removeItem _ _)) by done
    | rewrite (K _ _ _ (modifies_await_json _ _ _)) by done
    | rewrite (K _ _ _ (modifies_take_pending _ _)) by done
    | rewrite (K _ _ _ (modifies_confirm _ _)) by done
    | rewrite (K _ _ _ (modifies_console_log _ _)) by done
    | rewrite (K _ _ _ (modifies_console_error _ _)) by done
    | rewrite (K _ _ _ (modifies_showLoginSection _)) by done
    | rewrite (K _ _ _ (modifies_showAdminControls _)) by done
    | rewrite (K _ _ _ (modifies_showLoginError _ _)) by done
    | rewrite (K _ _ _ (modifies_showControlMessage _ _ _)) by done
    | rewrite (K _ _ _ (modifies_stopCountdown _)) by done
    | rewrite (K _ _ _ (modifies_stopStatusRefresh _)) by done
    | rewrite (K _ _ _ (modifies_fetchStatus _)) by done
    | rewrite (K _ _ _ (modifies_updateCountdown _)) by done
    | rewrite (K _ _ _ (modifies_startCountdown _)) by done
    | rewrite (K _ _ _ (modifies_startStatusRefresh _)) by done
    | rewrite (K _ _ _ (modifies_updateStatusDisplay _)) by done
    | rewrite (K _ _ _ (modifies_updateButtonStates _)) by done
    | rewrite (K _ _ _ (modifies_handleLogout _)) by done ].

Lemma classList_add_in e c w : c ∈ classList (elements (classList_add e c w) e).
Proof.
  unfold classList_add. rewrite update_element_same. simpl.
  case_decide; [done | apply elem_of_app; right; apply list_elem_of_singleton; done].
Qed.

Lemma classList_remove_out e c w :
  c ∉ classList (elements (classList_remove e c w) e).
Proof.
  unfold classList_remove. rewrite update_element_same. simpl.
  intros Hin. apply list_elem_of_filter in Hin as [Hne _]. done.
Qed.

Lemma showLoginSection_shows w :
  ~ hidden (showLoginSection w) El.loginSection
  /\ hidden (showLoginSection w) El.adminControls.
Proof.
  unfold hidden, showLoginSection, andThen. split.
  - unfold classList_add at 1. rewrite update_element_other by done.
    apply classList_remove_out.
  - apply classList_add_in.
Qed.


Lemma showLoginError_shows text w :
  shown_message (showLoginError text w) El.loginError text.
Proof.
  unfold shown_message, showLoginError, andThen. split.
  - unfold classList_add, set_textContent. by rewrite !update_element_same.
  - apply classList_add_in.
Qed.

(** ** Logging out *)

Lemma handleLogout_spec w :
  timers_inv w ->
  let w' := handleLogout w in
  isAuthenticated w' = false
  /\ credential_cleared w'
  /\ (statusRefreshInterval w' = None /\ countdownInterval w' = None)
  /\ (count_live CbFetchStatus w' = 0%nat
      /\ count_live CbUpdateCountdown w' = 0%nat)
  /\ (~ hidden w' El.loginSection /\ hidden w' El.adminControls).
Proof.
  intros Hw w'.
  assert (Hs : statusRefreshInterval w' = None).
  { subst w'. unfold handleLogout, andThen. peel keep_statusRefreshInterval.
    apply stopStatusRefresh_handle. }
  assert (Hc : countdownInterval w' = None).
  { subst w'. unfold handleLogout, andThen. peel keep_countdownInterval.
    apply stopCountdown_handle. }
  assert (Hw' : timers_inv w') by by apply preserves_inv_handleLogout.
  split; [|split; [split|]; [| |split; [done|split; [split|]]]].
  - subst w'. unfold handleLogout, andThen. by peel keep_isAuthenticated.
  - subst w'. unfold handleLogout, andThen. by peel keep_adminApiKey.
  - subst w'. unfold handleLogout, andThen. peel keep_sessionStorage.
    apply lookup_delete_eq.
  - by apply count_live_poll_none.
  - by apply count_live_countdown_none.
  - subst w'. unfold handleLogout, andThen, hidden.
    unfold set_value at 1. rewrite !update_element_other by done.
    apply showLoginSection_shows.
Qed.

(** C1, amended to the status fetch: when the answer to a status fetch has
    HTTP status 401 or 403, the panel is logged out: [isAuthenticated] is
    false, the key is cleared from [adminApiKey] and from sessionStorage, both
    handles are null, no poll timer and no countdown timer is live, and the
    login form is shown again. *)
Theorem status_fetch_401_403_logs_out (w : World) (rid : nat) (status : Z) :
  reachable Date_getTime Date_toLocaleString w ->
  status = 401 \/ status = 403 ->
  let w' := fetchStatus_response rid (Response status) w in
  isAuthenticated w' = false
  /\ credential_cleared w'
  /\ (statusRefreshInterval w' = None /\ countdownInterval w' = None)
  /\ (count_live CbFetchStatus w' = 0%nat
      /\ count_live CbUpdateCountdown w' = 0%nat)
  /\ (~ hidden w' El.loginSection /\ hidden w' El.adminControls).
Proof.
  intros Hw Hst w'. apply reachable_timers_inv in Hw.
  assert (w' = handleLogout w) as ->
      by (subst w'; by destruct Hst as [-> | ->]).
  by apply handleLogout_spec.
Qed.

(** ** Logging in *)

(** Submitting a password that is not blank stores it in [adminApiKey] and
    sends one status request carrying it; the rest of [handleLogin] waits for
    the answer. *)
Lemma handleLogin_submits w :
  let password := Js.trim (value (elements w El.adminPassword)) in
  Js.truthy password = true ->
  let w1 := handleLogin w in
  adminApiKey w1 = password
  /\ requests w1 = (requests w ++ [status_request password])%list
  /\ pending w1 !! length (requests w) = Some handleLogin_await_fetch
  /\ isAuthenticated w1 = isAuthenticated w
  /\ sessionStorage w1 = sessionStorage w.
Proof.
  intros password Hp w1. subst w1. unfold handleLogin. fold password.
  rewrite Hp. simpl. repeat split. apply lookup_insert_eq.
Qed.

Lemma handleLogin_response_ok w status :
  ok status = true ->
  handleLogin_response (Response status) w
  = startStatusRefresh
      (fetchStatus
         (showAdminControls
            (sessionStorage_setItem "adminApiKey" (adminApiKey w)
               (set_isAuthenticated w true)))).
Proof. intros Hok. unfold handleLogin_response. by rewrite Hok. Qed.


(** ** Resetting *)


(** ** Checking a stored key *)

(** C5, amended: the answer to the check of a stored key is read in two
    ways only.  A 2xx response makes the panel authenticated and keeps the
    key.  Any other HTTP status, 401 and 403 like 500, is taken as an invalid
    stored key: the key is removed from sessionStorage and [adminApiKey] is
    emptied.  Only a network error leaves the stored key in place. *)
Theorem stored_key_check_outcomes (w : World) :
  (forall status, 200 <= status <= 299 ->
     let w' := verifyAuthentication_response (Response status) w in
     isAuthenticated w' = true
     /\ adminApiKey w' = adminApiKey w
     /\ sessionStorage w' = sessionStorage w)
  /\ (forall status, ~ (200 <= status <= 299) ->
     let w' := verifyAuthentication_response (Response status) w in
     isAuthenticated w' = isAuthenticated w
     /\ credential_cleared w')
  /\ (let w' := verifyAuthentication_response NetworkError w in
      isAuthenticated w' = isAuthenticated w
      /\ adminApiKey w' = adminApiKey w
      /\ sessionStorage w' = sessionStorage w).
Proof.
  split; [|split].
  - intros status Hst w'. subst w'. apply ok_spec in Hst.
    unfold verifyAuthentication_response. rewrite Hst. unfold andThen.
    split; [|split].
    + by peel keep_isAuthenticated.
    + by peel keep_adminApiKey.
    + by peel keep_sessionStorage.
  - intros status Hst w'. subst w'. apply not_ok_spec in Hst.
    unfold verifyAuthentication_response. rewrite Hst.
    split; [done|]. split; [done | apply lookup_delete_eq].
  - done.
Qed.

(** ** A login that fails *)

(** C6, amended: when the login request fails with a network error the
    panel's authentication state is what it was (logged out stays logged
    out), the message [Connection error. Is the backend running?] is shown,
    and nothing is written to sessionStorage.  When the answer is an HTTP
    status that is neither 2xx nor 401 nor 403, the same holds with the
    message [Authentication failed. Please try again.] *)
Theorem failed_login_stays_logged_out (w : World) :
  (let w' := handleLogin_response NetworkError w in
   isAuthenticated w' = isAuthenticated w
   /\ sessionStorage w' = sessionStorage w
   /\ shown_message w' El.loginError
        "Connection error. Is the backend running?"
   /\ requests w' = requests w)
  /\ (forall status,
        ~ (200 <= status <= 299) -> status <> 401 -> status <> 403 ->
        let w' := handleLogin_response (Response status) w in
        isAuthenticated w' = isAuthenticated w
        /\ sessionStorage w' = sessionStorage w
        /\ shown_message w' El.loginError
             "Authentication failed. Please try again."
        /\ requests w' = requests w).
Proof.
  split.
  - repeat split. apply (showLoginError_shows _ (console_error _ w)).
  - intros status Hst H401 H403 w'. subst w'. apply not_ok_spec in Hst.
    unfold handleLogin_response. rewrite Hst.
    apply Z.eqb_neq in H401, H403. rewrite H401, H403. cbn [orb].
    repeat split. apply showLoginError_shows.
Qed.

(** ** The countdown *)

(** What [updateCountdown] does when the competition is active and its end
    time is a date. *)
Lemma updateCountdown_running w iso end_ :
  isActive (competitionState w) = true ->
  endTime (competitionState w) = Some iso ->
  Js.truthy iso = true ->
  Date_getTime iso = Some end_ ->
  updateCountdown Date_getTime w
  = let distance := end_ - clock w in
    if distance <? 0 then
      (set_textContent El.adminDays "00"
       >>> set_textContent El.adminHours "00"
       >>> set_textContent El.adminMinutes "00"
       >>> set_textContent El.adminSeconds "00"
       >>> stopCountdown
       >>> fetchStatus) w
    else
      let days := distance / 86400000 in
      let hours := Z.rem distance 86400000 / 3600000 in
      let minutes := Z.rem distance 3600000 / 60000 in
      let seconds := Z.rem distance 60000 / 1000 in
      (set_textContent El.adminDays (pad2 days)
       >>> set_textContent El.adminHours (pad2 hours)
       >>> set_textContent El.adminMinutes (pad2 minutes)
       >>> set_textContent El.adminSeconds (pad2 seconds)
       >>> (if (days =? 0) && (hours <? 24)
            then classList_add El.countdown "ending"
            else classList_remove El.countdown "ending")) w.
Proof.
  intros Ha He Ht Hg. unfold updateCountdown. by rewrite He, Ha, Ht, Hg.
Qed.

(** C2: on a tick with the competition active, an end time that is a date
    and a distance D = end - now that is not negative, the four fields show
    numbers days, hours, minutes, seconds with
    days*86400 + hours*3600 + minutes*60 + seconds = floor(D/1000), the last
    three within a day, an hour and a minute, and each field is the decimal
    numeral of its number filled with zeros to two characters. *)
Theorem countdown_fields_decompose (w : World) (iso : string) (end_ : Z) :
  isActive (competitionState w) = true ->
  endTime (competitionState w) = Some iso ->
  Js.truthy iso = true ->
  Date_getTime iso = Some end_ ->
  0 <= end_ - clock w ->
  let D := end_ - clock w in
  let w' := updateCountdown Date_getTime w in
  exists days hours minutes seconds,
    days * 86400 + hours * 3600 + minutes * 60 + seconds = D / 1000
    /\ (0 <= days /\ 0 <= hours < 24 /\ 0 <= minutes < 60 /\ 0 <= seconds < 60)
    /\ countdown_fields w'
       = [pad2 days; pad2 hours; pad2 minutes; pad2 seconds]
    /\ Forall2 (zero_padded 2) [days; hours; minutes; seconds]
         (countdown_fields w')
    /\ Forall (fun s => String.length s = 2%nat)
         [pad2 hours; pad2 minutes; pad2 seconds].
Proof.
  intros Ha He Ht Hg HD D w'.
  pose proof (updateCountdown_running w iso end_ Ha He Ht Hg) as Hw'.
  fold w' D in Hw'. cbv zeta in Hw'.
  destruct (D <? 0) eqn:Hneg; [apply Z.ltb_lt in Hneg; lia|].
  destruct (split_distance D HD) as (Hsum & Hd & Hh & Hm & Hs).
  assert (Hf : countdown_fields w'
               = [pad2 (D / 86400000);
                  pad2 (Z.rem D 86400000 / 3600000);
                  pad2 (Z.rem D 3600000 / 60000);
                  pad2 (Z.rem D 60000 / 1000)]).
  { rewrite Hw'. by destruct (_ && _). }
  eexists _, _, _, _.
  split; [exact Hsum|split; [done|split; [exact Hf|split]]].
  - rewrite Hf. repeat constructor; apply pad2_zero_padded; lia.
  - repeat constructor; apply pad2_length; lia.
Qed.

(** C4, amended: on a tick with the competition active, an end time that
    is a date and a negative distance, the four fields are set to 00, the
    countdown is stopped (its handle is null and no countdown timer is live),
    and the tick calls [fetchStatus] once: one status request goes out when
    the panel is authenticated, and none when it is not. *)
Theorem expired_countdown_tick (w : World) (iso : string) (end_ : Z) :
  reachable Date_getTime Date_toLocaleString w ->
  isActive (competitionState w) = true ->
  endTime (competitionState w) = Some iso ->
  Js.truthy iso = true ->
  Date_getTime iso = Some end_ ->
  end_ - clock w < 0 ->
  let w' := updateCountdown Date_getTime w in
  countdown_fields w' = ["00"; "00"; "00"; "00"]
  /\ (countdownInterval w' = None
      /\ count_live CbUpdateCountdown w' = 0%nat)
  /\ requests w'
     = if isAuthenticated w
       then (requests w ++ [status_request (adminApiKey w)])%list
       else requests w.
Proof.
  intros Hw Ha He Ht Hg HD w'. apply reachable_timers_inv in Hw.
  assert (Hinv : timers_inv w') by by apply preserves_inv_updateCountdown.
  pose proof (updateCountdown_running w iso end_ Ha He Ht Hg) as Hw'.
  fold w' in Hw'. cbv zeta in Hw'. apply Z.ltb_lt in HD. rewrite HD in Hw'.
  clearbody w'. unfold andThen in Hw'.
  assert (Hh : countdownInterval w' = None).
  { rewrite Hw'. peel keep_countdownInterval. apply stopCountdown_handle. }
  split; [|split; [split|]].
  - rewrite Hw'. unfold countdown_fields. by peel keep_elements.
  - done.
  - by apply count_live_countdown_none.
  - rewrite Hw', fetchStatus_requests.
    by peel keep_isAuthenticated; peel keep_adminApiKey; peel keep_requests.
Qed.

(** ** Runs *)

Lemma run_reachable evs w w' :
  reachable Date_getTime Date_toLocaleString w ->
  run Date_getTime Date_toLocaleString evs w = Some w' ->
  reachable Date_getTime Date_toLocaleString w'.
Proof.
  revert w. induction evs as [|ev evs IH]; intros w Hw Hrun; simpl in Hrun.
  - by simplify_eq.
  - destruct (step Date_getTime Date_toLocaleString ev w) as [w1|] eqn:Hstep;
      [|done].
    apply (IH w1); [|done]. by apply (reachable_step _ _ w ev w1).
Qed.

(** ** What each handler may change *)

Lemma modifies_handleLogin :
  modifies [F_adminApiKey; F_elements; F_requests; F_pending] handleLogin.
Proof. intros w. unfold handleLogin. destruct (negb _); frame. Qed.

Lemma modifies_handleLogin_response r :
  modifies
    [F_isAuthenticated; F_sessionStorage; F_elements; F_requests; F_pending;
     F_timers; F_nextTimerId; F_statusRefreshInterval; F_console]
    (handleLogin_response r).
Proof. unfold handleLogin_response. destruct r as [|status]; frame. Qed.

Lemma modifies_verifyAuthentication :
  modifies [F_requests; F_pending] verifyAuthentication.
Proof. unfold verifyAuthentication. frame. Qed.

Lemma modifies_verifyAuthentication_response r :
  modifies
    [F_isAuthenticated; F_adminApiKey; F_sessionStorage; F_elements;
     F_requests; F_pending; F_timers; F_nextTimerId; F_statusRefreshInterval;
     F_console]
    (verifyAuthentication_response r).
Proof. unfold verifyAuthentication_response. destruct r as [|status]; frame. Qed.

Lemma modifies_handleStartCompetition durationDays confirmed :
  modifies
    [F_dialogs; F_elements; F_timers; F_nextTimerId; F_requests; F_pending]
    (handleStartCompetition durationDays confirmed).
Proof.
  intros w. unfold handleStartCompetition.
  destruct (negb (isAuthenticated w)); [apply agree_refl|]. cbv zeta.
  destruct (negb confirmed); [frame|].
  match goal with
  | |- agree_outside ?F w (?c (confirm ?text w)) =>
      apply (modifies_seq F (confirm text) c); frame
  end.
Qed.

Lemma modifies_handleStartCompetition_catch :
  modifies [F_console; F_elements; F_timers; F_nextTimerId]
    handleStartCompetition_catch.
Proof. unfold handleStartCompetition_catch. frame. Qed.

#[local] Hint Resolve modifies_handleStartCompetition_catch : frame.

Lemma modifies_handleStartCompetition_response rid durationText r :
  modifies [F_pending; F_console; F_elements; F_timers; F_nextTimerId]
    (handleStartCompetition_response rid durationText r).
Proof. unfold handleStartCompetition_response. destruct r; frame. Qed.

Lemma modifies_handleStartCompetition_json durationText j :
  modifies
    [F_console; F_elements; F_timers; F_nextTimerId; F_requests; F_pending]
    (handleStartCompetition_json durationText j).
Proof. unfold handleStartCompetition_json. destruct j as [|data]; frame. Qed.

Lemma modifies_handleResetCompetition confirmed :
  modifies
    [F_dialogs; F_elements; F_timers; F_nextTimerId; F_requests; F_pending]
    (handleResetCompetition confirmed).
Proof.
  intros w. unfold handleResetCompetition.
  destruct (negb (isAuthenticated w)); [apply agree_refl|]. cbv zeta.
  destruct (negb confirmed); [frame|].
  match goal with
  | |- agree_outside ?F w (?c (confirm ?text w)) =>
      apply (modifies_seq F (confirm text) c); frame
  end.
Qed.

Lemma modifies_handleResetCompetition_catch :
  modifies [F_console; F_elements; F_timers; F_nextTimerId]
    handleResetCompetition_catch.
Proof.
  unfold handleResetCompetition_catch, handleResetCompetition_finally. frame.
Qed.

#[local] Hint Resolve modifies_handleResetCompetition_catch : frame.

Lemma modifies_handleResetCompetition_response rid r :
  modifies [F_pending; F_console; F_elements; F_timers; F_nextTimerId]
    (handleResetCompetition_response rid r).
Proof. unfold handleResetCompetition_response. destruct r; frame. Qed.

Lemma modifies_handleResetCompetition_json j :
  modifies
    [F_console; F_elements; F_timers; F_nextTimerId; F_requests; F_pending]
    (handleResetCompetition_json j).
Proof.
  unfold handleResetCompetition_json, handleResetCompetition_finally.
  destruct j as [|data]; frame.
Qed.


Lemma modifies_cond F (b : World -> bool) c1 c2 :
  modifies F c1 -> modifies F c2 ->
  modifies F (fun w => if b w then c1 w else c2 w).
Proof. intros H1 H2 w. destruct (b w); auto. Qed.

Lemma modifies_fetchStatus_json j :
  modifies
    [F_competitionState; F_elements; F_timers; F_nextTimerId;
     F_countdownInterval; F_requests; F_pending; F_console]
    (fetchStatus_json Date_getTime Date_toLocaleString j).
Proof.
  unfold fetchStatus_json, fetchStatus_catch.
  destruct j as [|data]; [frame|].
  destruct (competition data) as [c|]; [|frame].
  destruct (success data); [|frame].
  apply modifies_seq; [|frame].
  apply modifies_seq; [frame|].
  apply (modifies_cond _
           (fun w => isActive (competitionState w)
                     && negb (isEnded (competitionState w))));
    frame.
Qed.

Lemma modifies_run_callback cb :
  modifies [F_elements; F_timers; F_countdownInterval; F_requests; F_pending]
    (run_callback Date_getTime cb).
Proof. destruct cb; simpl; frame. Qed.

Lemma modifies_rearm h t : modifies [F_timers] (rearm h t).
Proof. intros w. unfold rearm. destruct (repeating t); by_fields. Qed.

(** ** White space and the password field *)









(** ** Logging in: the password that is not sent, the password refused *)


(** X2: a login answered 401 or 403 shows [Invalid admin password] and
    changes nothing but the page: the panel is not authenticated by it,
    nothing is stored, no request is sent, no timer is set. *)
Theorem login_refused (w : World) (status : Z) :
  status = 401 \/ status = 403 ->
  let w' := handleLogin_response (Response status) w in
  shown_message w' El.loginError "Invalid admin password"
  /\ agree_outside [F_elements] w w'.
Proof.
  intros Hst w'. subst w'.
  assert (handleLogin_response (Response status) w
          = showLoginError "Invalid admin password" w) as ->
      by (by destruct Hst as [-> | ->]).
  split; [apply showLoginError_shows | frame].
Qed.

(** ** Logging out *)

(** X3: the logout button, from any state the panel can reach: the panel
    is logged out, the key is gone from the variable and from sessionStorage,
    both handles are null and no poll or countdown timer is live, the login
    form is shown with its password field emptied.  Logging out cancels no
    request: the answers still awaited stay awaited, and the competition state
    stays as it was. *)
Theorem logout_ends_the_session (w : World) :
  reachable Date_getTime Date_toLocaleString w ->
  let w' := handleLogout w in
  isAuthenticated w' = false
  /\ credential_cleared w'
  /\ (statusRefreshInterval w' = None /\ countdownInterval w' = None)
  /\ (count_live CbFetchStatus w' = 0%nat
      /\ count_live CbUpdateCountdown w' = 0%nat)
  /\ (~ hidden w' El.loginSection /\ hidden w' El.adminControls)
  /\ value (elements w' El.adminPassword) = ""
  /\ (pending w' = pending w
      /\ requests w' = requests w
      /\ competitionState w' = competitionState w).
Proof.
  intros Hw w'. apply reachable_timers_inv in Hw.
  destruct (handleLogout_spec w Hw) as (H1 & H2 & H3 & H4 & H5).
  fold w' in H1, H2, H3, H4, H5.
  pose proof (modifies_handleLogout w) as Hm. fold w' in Hm.
  repeat (split; [assumption|]). split; [done|].
  split; [|split].
  - by apply (keep_pending _ _ _ Hm).
  - by apply (keep_requests _ _ _ Hm).
  - by apply (keep_competitionState _ _ _ Hm).
Qed.

(** ** Leaving the page *)

(** X4: the beforeunload listener stops the poller and the countdown (both
    handles null, no such timer live) and touches nothing else. *)
Theorem unload_stops_both_timers (w w' : World) :
  reachable Date_getTime Date_toLocaleString w ->
  step Date_getTime Date_toLocaleString BeforeUnload w = Some w' ->
  (statusRefreshInterval w' = None /\ countdownInterval w' = None)
  /\ (count_live CbFetchStatus w' = 0%nat
      /\ count_live CbUpdateCountdown w' = 0%nat)
  /\ agree_outside [F_timers; F_statusRefreshInterval; F_countdownInterval] w w'.
Proof.
  intros Hw Hstep. apply reachable_timers_inv in Hw.
  cbn [step] in Hstep. simplify_eq. unfold andThen.
  assert (Hinv : timers_inv (stopCountdown (stopStatusRefresh w)))
    by by apply preserves_inv_stopCountdown, preserves_inv_stopStatusRefresh.
  assert (Hs : statusRefreshInterval (stopCountdown (stopStatusRefresh w)) = None).
  { peel keep_statusRefreshInterval. apply stopStatusRefresh_handle. }
  pose proof (stopCountdown_handle (stopStatusRefresh w)) as Hc.
  split; [done|split; [split|]].
  - by apply count_live_poll_none.
  - by apply count_live_countdown_none.
  - apply agree_trans with (w2 := stopStatusRefresh w); frame.
Qed.

(** ** A status fetch that fails *)

(** X5: a status fetch that fails for any reason other than 401/403 leaves
    the panel as it was, apart from a line on the console (and the wait for
    the answer being over): a network error, an HTTP status that is neither
    2xx nor 401 nor 403, a body that cannot be read.  A body without
    [success] or without [competition] changes nothing at all.  So the last
    known competition state stays displayed, the panel stays logged in and the
    timers keep running. *)
Theorem failed_status_fetch_keeps_state (w : World) (rid : nat) :
  agree_outside [F_console] w (fetchStatus_response rid NetworkError w)
  /\ (forall status,
        ~ (200 <= status <= 299) -> status <> 401 -> status <> 403 ->
        agree_outside [F_console] w
          (fetchStatus_response rid (Response status) w))
  /\ agree_outside [F_console] w
       (fetchStatus_json Date_getTime Date_toLocaleString JsonThrows w)
  /\ (forall data,
        success data = false \/ competition data = None ->
        fetchStatus_json Date_getTime Date_toLocaleString (JsonValue data) w
        = w).
Proof.
  split; [|split; [|split]].
  - unfold fetchStatus_response, fetchStatus_catch. frame.
  - intros status Hst H401 H403. apply not_ok_spec in Hst.
    apply Z.eqb_neq in H401, H403.
    unfold fetchStatus_response. rewrite Hst, H401, H403. cbn [negb orb].
    unfold fetchStatus_catch. frame.
  - unfold fetchStatus_json, fetchStatus_catch. frame.
  - intros data Hd. unfold fetchStatus_json.
    destruct (competition data); [|done].
    destruct Hd as [-> | ?]; done.
Qed.

(** ** What a status update shows *)

Lemma updateCountdown_elements_other w e :
  e ∉ [El.countdown; El.adminDays; El.adminHours; El.adminMinutes;
       El.adminSeconds] ->
  elements (updateCountdown Date_getTime w) e = elements w e.
Proof.
  intros He. rewrite !not_elem_of_cons in He.
  destruct He as (H0 & H1 & H2 & H3 & H4 & _).
  unfold updateCountdown.
  destruct (endTime (competitionState w)) as [iso|];
    [|by apply update_element_other].
  destruct (negb _ || negb _); [by apply update_element_other|].
  destruct (Date_getTime iso) as [end_|].
  - destruct (_ <? 0).
    + unfold andThen. peel keep_elements.
      unfold set_textContent. by rewrite !update_element_other.
    + destruct (_ && _); unfold andThen, set_textContent, classList_add,
        classList_remove; by rewrite !update_element_other.
  - unfold andThen, set_textContent, classList_remove.
    by rewrite !update_element_other.
Qed.

Lemma startCountdown_elements_other w e :
  e ∉ [El.countdown; El.adminDays; El.adminHours; El.adminMinutes;
       El.adminSeconds] ->
  elements (startCountdown Date_getTime w) e = elements w e.
Proof.
  intros He. unfold startCountdown. simpl.
  rewrite updateCountdown_elements_other by done.
  by rewrite (keep_elements _ _ _ (modifies_stopCountdown w)).
Qed.

Lemma updateStatusDisplay_shows w :
  let w' := updateStatusDisplay Date_toLocaleString w in
  let cs := competitionState w in
  textContent (elements w' El.statusValue) = badge_text cs
  /\ classList (elements w' El.statusValue) = ["status-badge"; badge_class cs]
  /\ textContent (elements w' El.startTime)
     = formatDateTime Date_toLocaleString (startTime cs)
  /\ textContent (elements w' El.endTime)
     = formatDateTime Date_toLocaleString (endTime cs).
Proof.
  cbv zeta. unfold updateStatusDisplay, badge_text, badge_class, formatDateTime.
  destruct (startTime (competitionState w)) as [s|];
    destruct (endTime (competitionState w)) as [e|];
    destruct (isEnded (competitionState w));
    destruct (isActive (competitionState w));
    try destruct (Js.truthy s); try destruct (Js.truthy e);
    repeat split.
Qed.

(** The state a status answer is applied to, before the countdown and the
    buttons follow it. *)
Lemma fetchStatus_json_steps w data c :
  competition data = Some c -> success data = true ->
  let w1 :=
    updateStatusDisplay Date_toLocaleString
      (set_competitionState w (competitionState_of c)) in
  fetchStatus_json Date_getTime Date_toLocaleString (JsonValue data) w
  = updateButtonStates
      (if is_running (competitionState_of c)
       then startCountdown Date_getTime w1
       else stopCountdown w1).
Proof.
  intros Hc Hs w1. unfold fetchStatus_json. rewrite Hc, Hs. unfold andThen.
  fold w1.
  assert (competitionState w1 = competitionState_of c) as ->; [|done].
  subst w1. by peel keep_competitionState.
Qed.

Lemma updateButtonStates_elements_other w e :
  e ∉ [El.start7DaysBtn; El.start14DaysBtn; El.start30DaysBtn; El.resetBtn] ->
  elements (updateButtonStates w) e = elements w e.
Proof.
  intros He. rewrite !not_elem_of_cons in He.
  destruct He as (H0 & H1 & H2 & H3 & _).
  unfold updateButtonStates, andThen, set_disabled.
  by rewrite !update_element_other.
Qed.

(** X6: what the page shows after a status answer is applied.  The badge
    reads Ended for an ended competition (also when it is still flagged
    active), Active with the length of a 7, 14 or 30 day competition for an
    active one, Inactive otherwise; it carries exactly the class
    [status-badge] and the one class of that state, whatever it carried
    before.  The start and end time show the formatted date, or a dash when
    the time is null or empty. *)
Theorem status_display_after_update
    (w : World) (data : Data) (c : CompetitionJson) :
  competition data = Some c ->
  success data = true ->
  let w' :=
    fetchStatus_json Date_getTime Date_toLocaleString (JsonValue data) w in
  let cs := competitionState_of c in
  textContent (elements w' El.statusValue) = badge_text cs
  /\ classList (elements w' El.statusValue) = ["status-badge"; badge_class cs]
  /\ textContent (elements w' El.startTime)
     = formatDateTime Date_toLocaleString (json_startTime c)
  /\ textContent (elements w' El.endTime)
     = formatDateTime Date_toLocaleString (json_endTime c).
Proof.
  intros Hc Hs w' cs. subst w'.
  rewrite (fetchStatus_json_steps w data c Hc Hs). cbv zeta.
  set (w0 := set_competitionState w (competitionState_of c)).
  pose proof (updateStatusDisplay_shows w0) as Hshow. cbv zeta in Hshow.
  change (competitionState w0) with cs in Hshow.
  assert (Hsame : forall e,
             e ∈ [El.statusValue; El.startTime; El.endTime] ->
             elements
               (updateButtonStates
                  (if is_running (competitionState_of c)
                   then startCountdown Date_getTime
                          (updateStatusDisplay Date_toLocaleString w0)
                   else stopCountdown
                          (updateStatusDisplay Date_toLocaleString w0))) e
             = elements (updateStatusDisplay Date_toLocaleString w0) e).
  { intros e He.
    assert (He1 : e ∉ [El.start7DaysBtn; El.start14DaysBtn; El.start30DaysBtn;
                       El.resetBtn])
      by (rewrite !elem_of_cons in He; rewrite !not_elem_of_cons;
          destruct He as [-> | [-> | [-> | []%elem_of_nil]]]; repeat split;
          try done; apply not_elem_of_nil).
    assert (He2 : e ∉ [El.countdown; El.adminDays; El.adminHours;
                       El.adminMinutes; El.adminSeconds])
      by (rewrite !elem_of_cons in He; rewrite !not_elem_of_cons;
          destruct He as [-> | [-> | [-> | []%elem_of_nil]]]; repeat split;
          try done; apply not_elem_of_nil).
    rewrite updateButtonStates_elements_other by done.
    destruct (is_running _).
    - by apply startCountdown_elements_other.
    - by rewrite (keep_elements _ _ _ (modifies_stopCountdown _)). }
  rewrite !Hsame by (rewrite !elem_of_cons; auto).
  exact Hshow.
Qed.

(** X7: after a status answer is applied the countdown runs exactly when
    the competition is active and not ended: then the countdown handle is the
    handle just handed out and one countdown timer is live; otherwise the
    handle is null and no countdown timer is live. *)
Theorem countdown_follows_status
    (w : World) (data : Data) (c : CompetitionJson) :
  reachable Date_getTime Date_toLocaleString w ->
  competition data = Some c ->
  success data = true ->
  let w' :=
    fetchStatus_json Date_getTime Date_toLocaleString (JsonValue data) w in
  if json_isActive c && negb (json_isEnded c) then
    countdownInterval w' = Some (nextTimerId w)
    /\ count_live CbUpdateCountdown w' = 1%nat
  else
    countdownInterval w' = None
    /\ count_live CbUpdateCountdown w' = 0%nat.
Proof.
  intros Hw Hc Hs w'. apply reachable_timers_inv in Hw. subst w'.
  rewrite (fetchStatus_json_steps w data c Hc Hs). cbv zeta.
  set (w1 := updateStatusDisplay Date_toLocaleString
               (set_competitionState w (competitionState_of c))).
  assert (Hinv : timers_inv w1).
  { subst w1.
    apply (preserves_inv_quiet
             (fun w => updateStatusDisplay Date_toLocaleString
                         (set_competitionState w (competitionState_of c))));
      [|done].
    intros w0. eapply agree_trans;
      [|apply (modifies_mono _ _ _ modifies_updateStatusDisplay); done].
    by_fields. }
  assert (Hn : nextTimerId w1 = nextTimerId w).
  { subst w1. by peel keep_nextTimerId. }
  change (json_isActive c && negb (json_isEnded c))
    with (is_running (competitionState_of c)).
  unfold count_live, live.
  rewrite (keep_timers _ _ _ (modifies_updateButtonStates _)) by done.
  rewrite (keep_countdownInterval _ _ _ (modifies_updateButtonStates _)) by done.
  destruct (is_running (competitionState_of c)).
  - destruct (startCountdown_spec w1) as [Hh _]. rewrite Hn in Hh.
    split; [done|]. by apply count_live_startCountdown.
  - split; [apply stopCountdown_handle|].
    apply count_live_countdown_none;
      [by apply preserves_inv_stopCountdown | apply stopCountdown_handle].
Qed.

(** ** The last day *)

(** X8: on a tick with a distance that is not negative, the countdown
    carries the class [ending] exactly when less than a day is left (the test
    on the hours never decides). *)
Theorem ending_class_marks_last_day (w : World) (iso : string) (end_ : Z) :
  isActive (competitionState w) = true ->
  endTime (competitionState w) = Some iso ->
  Js.truthy iso = true ->
  Date_getTime iso = Some end_ ->
  0 <= end_ - clock w ->
  let w' := updateCountdown Date_getTime w in
  "ending" ∈ classList (elements w' El.countdown) <-> end_ - clock w < 86400000.
Proof.
  intros Ha He Ht Hg HD w'.
  pose proof (updateCountdown_running w iso end_ Ha He Ht Hg) as Hw'.
  fold w' in Hw'. cbv zeta in Hw'.
  destruct (end_ - clock w <? 0) eqn:Hneg; [apply Z.ltb_lt in Hneg; lia|].
  destruct (split_distance _ HD) as (_ & _ & Hh & _).
  rewrite Hw'. unfold andThen.
  destruct (_ =? 0) eqn:Hdays.
  - apply Z.eqb_eq in Hdays.
    assert ((Z.rem (end_ - clock w) 86400000 / 3600000 <? 24) = true) as ->
        by (apply Z.ltb_lt; lia).
    cbn [andb]. split; [intros _|intros _; apply classList_add_in].
    by apply no_whole_day.
  - apply Z.eqb_neq in Hdays. cbn [andb]. split.
    + intros Hin. by apply classList_remove_out in Hin.
    + intros Hlt. exfalso. apply Hdays. apply Z.div_small. lia.
Qed.

(** ** What a timer may change *)

(** X9: no timer callback (poll, countdown tick, message hiding) changes
    the competition state, the authentication flag, the key, the stored key
    or the poll handle: a firing timer changes at most the page, the timers,
    the countdown handle and the requests sent. *)
Theorem timers_leave_the_session_alone (w w' : World) (h : positive) :
  step Date_getTime Date_toLocaleString (Fire h) w = Some w' ->
  agree_outside
    [F_elements; F_timers; F_countdownInterval; F_requests; F_pending] w w'.
Proof.
  intros Hstep. cbn [step] in Hstep.
  destruct (timers w !! h) as [t|]; [|done].
  destruct (due t <=? clock w); simplify_eq.
  apply agree_trans with (w2 := rearm h t w).
  - apply (modifies_mono _ _ _ (modifies_rearm h t)). done.
  - apply modifies_run_callback.
Qed.

(** ** The poller and the session, the countdown and the competition *)

Lemma modifies_init :
  modifies [F_console; F_adminApiKey; F_requests; F_pending] init.
Proof.
  unfold init. apply modifies_seq; [|frame]. apply modifies_seq; [frame|].
  intros w. destruct (sessionStorage w !! "adminApiKey") as [k|];
    [|apply agree_refl].
  destruct (Js.truthy k); [|apply agree_refl].
  apply agree_trans with (w2 := set_adminApiKey w k); [by_fields|].
  apply (modifies_mono _ _ _ modifies_verifyAuthentication). done.
Qed.

Lemma handleLogout_handles w :
  statusRefreshInterval (handleLogout w) = None
  /\ countdownInterval (handleLogout w) = None.
Proof.
  unfold handleLogout, andThen. split.
  - peel keep_statusRefreshInterval. apply stopStatusRefresh_handle.
  - peel keep_countdownInterval. apply stopCountdown_handle.
Qed.

Lemma handleLogin_response_authenticates w status :
  ok status = true ->
  isAuthenticated (handleLogin_response (Response status) w) = true.
Proof.
  intros Hok. rewrite handleLogin_response_ok by done.
  by peel keep_isAuthenticated.
Qed.

Lemma verifyAuthentication_response_authenticates w status :
  ok status = true ->
  isAuthenticated (verifyAuthentication_response (Response status) w) = true.
Proof.
  intros Hok. unfold verifyAuthentication_response. rewrite Hok.
  unfold andThen. by peel keep_isAuthenticated.
Qed.

Lemma poller_needs_login_frame F w w' :
  agree_outside F w w' ->
  among F_isAuthenticated F = false ->
  among F_statusRefreshInterval F = false ->
  poller_needs_login w -> poller_needs_login w'.
Proof.
  intros Hm Ha Hs Hw. unfold poller_needs_login.
  by rewrite (keep_isAuthenticated _ _ _ Hm), (keep_statusRefreshInterval _ _ _ Hm).
Qed.

Lemma poller_needs_login_failed_response w w' :
  poller_needs_login w ->
  agree_outside [F_elements; F_console; F_sessionStorage; F_adminApiKey] w w' ->
  poller_needs_login w'.
Proof. intros Hw Hm. by apply (poller_needs_login_frame _ w w' Hm). Qed.

Lemma step_poller_needs_login ev w w' :
  step Date_getTime Date_toLocaleString ev w = Some w' ->
  poller_needs_login w -> poller_needs_login w'.
Proof.
  intros Hstep Hw. destruct ev; cbn [step] in Hstep.
  - simplify_eq.
    by apply (poller_needs_login_frame _ _ _ (modifies_set_value _ _ w)).
  - simplify_eq. by apply (poller_needs_login_frame _ _ _ (modifies_handleLogin w)).
  - destruct (disabled _); simplify_eq.
    by apply (poller_needs_login_frame _ _ _
                (modifies_handleStartCompetition _ _ w)).
  - destruct (disabled _); simplify_eq.
    by apply (poller_needs_login_frame _ _ _
                (modifies_handleResetCompetition _ w)).
  - simplify_eq. intros _. exact (proj1 (handleLogout_handles w)).
  - destruct (_ <? 0); simplify_eq. exact Hw.
  - destruct (timers w !! h) as [t|]; [|done].
    destruct (due t <=? clock w); simplify_eq.
    apply (poller_needs_login_frame _ _ _ (modifies_run_callback _ _)); [done..|].
    by apply (poller_needs_login_frame _ _ _ (modifies_rearm h t w)).
  - assert (Htake : poller_needs_login (take_pending rid w)) by exact Hw.
    destruct (pending w !! rid) as [[]|]; simplify_eq.
    + destruct r as [|status].
      * by apply (poller_needs_login_frame [F_console; F_elements] (take_pending rid w));
          [unfold handleLogin_response; frame|..].
      * destruct (ok status) eqn:Hok.
        -- intros Hout.
           by rewrite handleLogin_response_authenticates in Hout.
        -- apply (poller_needs_login_frame [F_elements] (take_pending rid w));
             [|done..].
           unfold handleLogin_response. rewrite Hok.
           destruct (_ || _); frame.
    + destruct r as [|status].
      * by apply (poller_needs_login_frame [F_console] (take_pending rid w));
          [unfold verifyAuthentication_response; frame|..].
      * destruct (ok status) eqn:Hok.
        -- intros Hout.
           by rewrite verifyAuthentication_response_authenticates in Hout.
        -- apply (poller_needs_login_frame [F_sessionStorage; F_adminApiKey]
                    (take_pending rid w)); [|done..].
           unfold verifyAuthentication_response. rewrite Hok. frame.
    + by apply (poller_needs_login_frame _ _ _
                  (modifies_handleStartCompetition_response _ _ _ _)).
    + by apply (poller_needs_login_frame _ _ _
                  (modifies_handleResetCompetition_response _ _ _)).
    + destruct r as [|status].
      * by apply (poller_needs_login_frame [F_console] (take_pending rid w));
          [unfold fetchStatus_response, fetchStatus_catch; frame|..].
      * unfold fetchStatus_response. destruct (negb (ok status)).
        -- destruct (_ || _).
           ++ intros _. exact (proj1 (handleLogout_handles _)).
           ++ by apply (poller_needs_login_frame [F_console] (take_pending rid w));
                [unfold fetchStatus_catch; frame|..].
        -- by apply (poller_needs_login_frame [F_pending] (take_pending rid w));
             [frame|..].
  - assert (Htake : poller_needs_login (take_pending rid w)) by exact Hw.
    destruct (pending w !! rid) as [[]|]; simplify_eq.
    + by apply (poller_needs_login_frame _ _ _
                  (modifies_handleStartCompetition_json _ _ _)).
    + by apply (poller_needs_login_frame _ _ _
                  (modifies_handleResetCompetition_json _ _)).
    + by apply (poller_needs_login_frame _ _ _ (modifies_fetchStatus_json _ _)).
  - simplify_eq. intros _. unfold andThen.
    peel keep_statusRefreshInterval. apply stopStatusRefresh_handle.
Qed.

Lemma reachable_poller_needs_login w :
  reachable Date_getTime Date_toLocaleString w -> poller_needs_login w.
Proof.
  induction 1 as [page storage t0 | w ev w' _ IH Hstep].
  - apply (poller_needs_login_frame _ _ _ (modifies_init _)); done.
  - by apply (step_poller_needs_login ev w w').
Qed.

(** X10: in every state the panel can reach while it is not
    authenticated, the poll handle is null and no poll timer is live: the
    poller never survives a logout and is never started before a login. *)
Theorem no_poller_while_logged_out (w : World) :
  reachable Date_getTime Date_toLocaleString w ->
  isAuthenticated w = false ->
  statusRefreshInterval w = None /\ count_live CbFetchStatus w = 0%nat.
Proof.
  intros Hw Hout.
  pose proof (reachable_poller_needs_login w Hw Hout) as Hnone.
  split; [done|]. apply count_live_poll_none; [|done].
  by apply reachable_timers_inv.
Qed.

Lemma countdown_needs_running_frame F w w' :
  agree_outside F w w' ->
  among F_countdownInterval F = false ->
  among F_competitionState F = false ->
  countdown_needs_running w -> countdown_needs_running w'.
Proof.
  intros Hm Ha Hs Hw. unfold countdown_needs_running.
  by rewrite (keep_countdownInterval _ _ _ Hm), (keep_competitionState _ _ _ Hm).
Qed.

Lemma countdown_needs_running_none w :
  countdownInterval w = None -> countdown_needs_running w.
Proof. intros Hnone Hsome. congruence. Qed.

Lemma countdown_needs_running_updateCountdown w :
  countdown_needs_running w ->
  countdown_needs_running (updateCountdown Date_getTime w).
Proof.
  intros Hw. destruct (updateCountdown_handle w) as [Hsame | Hnone];
    [|by apply countdown_needs_running_none].
  unfold countdown_needs_running. rewrite Hsame.
  by rewrite (keep_competitionState _ _ _ (modifies_updateCountdown w)).
Qed.

Lemma countdown_needs_running_fetchStatus_json j w :
  countdown_needs_running w ->
  countdown_needs_running
    (fetchStatus_json Date_getTime Date_toLocaleString j w).
Proof.
  intros Hw. destruct j as [|data].
  - by apply (countdown_needs_running_frame [F_console] w);
      [unfold fetchStatus_json, fetchStatus_catch; frame|..].
  - destruct (competition data) as [c|] eqn:Hc;
      [|unfold fetchStatus_json; by rewrite Hc].
    destruct (success data) eqn:Hs;
      [|unfold fetchStatus_json; by rewrite Hc, Hs].
    rewrite (fetchStatus_json_steps w data c Hc Hs). cbv zeta.
    unfold countdown_needs_running.
    rewrite (keep_countdownInterval _ _ _ (modifies_updateButtonStates _))
      by done.
    rewrite (keep_competitionState _ _ _ (modifies_updateButtonStates _))
      by done.
    destruct (is_running (competitionState_of c)) eqn:Hrun.
    + intros _. by peel keep_competitionState.
    + intros Hsome. by rewrite stopCountdown_handle in Hsome.
Qed.

Lemma step_countdown_needs_running ev w w' :
  step Date_getTime Date_toLocaleString ev w = Some w' ->
  countdown_needs_running w -> countdown_needs_running w'.
Proof.
  intros Hstep Hw. destruct ev; cbn [step] in Hstep.
  - simplify_eq.
    by apply (countdown_needs_running_frame _ _ _ (modifies_set_value _ _ w)).
  - simplify_eq.
    by apply (countdown_needs_running_frame _ _ _ (modifies_handleLogin w)).
  - destruct (disabled _); simplify_eq.
    by apply (countdown_needs_running_frame _ _ _
                (modifies_handleStartCompetition _ _ w)).
  - destruct (disabled _); simplify_eq.
    by apply (countdown_needs_running_frame _ _ _
                (modifies_handleResetCompetition _ w)).
  - simplify_eq. apply countdown_needs_running_none.
    exact (proj2 (handleLogout_handles w)).
  - destruct (_ <? 0); simplify_eq. exact Hw.
  - destruct (timers w !! h) as [t|]; [|done].
    destruct (due t <=? clock w); simplify_eq.
    assert (Hr : countdown_needs_running (rearm h t w))
      by by apply (countdown_needs_running_frame _ _ _ (modifies_rearm h t w)).
    destruct (callback t); simpl.
    + by apply (countdown_needs_running_frame _ _ _ (modifies_fetchStatus _)).
    + by apply countdown_needs_running_updateCountdown.
    + by apply (countdown_needs_running_frame _ _ _
                  (modifies_hideControlMessage _)).
  - assert (Htake : countdown_needs_running (take_pending rid w)) by exact Hw.
    destruct (pending w !! rid) as [[]|]; simplify_eq.
    + by apply (countdown_needs_running_frame _ _ _
                  (modifies_handleLogin_response _ _)).
    + by apply (countdown_needs_running_frame _ _ _
                  (modifies_verifyAuthentication_response _ _)).
    + by apply (countdown_needs_running_frame _ _ _
                  (modifies_handleStartCompetition_response _ _ _ _)).
    + by apply (countdown_needs_running_frame _ _ _
                  (modifies_handleResetCompetition_response _ _ _)).
    + destruct r as [|status].
      * by apply (countdown_needs_running_frame [F_console] (take_pending rid w));
          [unfold fetchStatus_response, fetchStatus_catch; frame|..].
      * unfold fetchStatus_response. destruct (negb (ok status)).
        -- destruct (_ || _).
           ++ apply countdown_needs_running_none.
              exact (proj2 (handleLogout_handles _)).
           ++ by apply (countdown_needs_running_frame [F_console]
                          (take_pending rid w));
                [unfold fetchStatus_catch; frame|..].
        -- by apply (countdown_needs_running_frame [F_pending]
                       (take_pending rid w)); [frame|..].
  - assert (Htake : countdown_needs_running (take_pending rid w)) by exact Hw.
    destruct (pending w !! rid) as [[]|]; simplify_eq.
    + by apply (countdown_needs_running_frame _ _ _
                  (modifies_handleStartCompetition_json _ _ _)).
    + by apply (countdown_needs_running_frame _ _ _
                  (modifies_handleResetCompetition_json _ _)).
    + by apply countdown_needs_running_fetchStatus_json.
  - simplify_eq. apply countdown_needs_running_none. apply stopCountdown_handle.
Qed.

Lemma reachable_countdown_needs_running w :
  reachable Date_getTime Date_toLocaleString w -> countdown_needs_running w.
Proof.
  induction 1 as [page storage t0 | w ev w' _ IH Hstep].
  - apply countdown_needs_running_none.
    by rewrite (keep_countdownInterval _ _ _ (modifies_init _)).
  - by apply (step_countdown_needs_running ev w w').
Qed.

(** X11: in every state the panel can reach, a countdown timer is live
    only while the last competition state received is active and not ended:
    the countdown never outlives the competition it counts down. *)
Theorem countdown_only_for_running_competition
    (w : World) (h : positive) (t : Timer) :
  reachable Date_getTime Date_toLocaleString w ->
  timers w !! h = Some t ->
  callback t = CbUpdateCountdown ->
  countdownInterval w = Some h
  /\ isActive (competitionState w) = true
  /\ isEnded (competitionState w) = false.
Proof.
  intros Hw Ht Hcb.
  pose proof (inv_countdown w (reachable_timers_inv w Hw) h t Ht Hcb) as Hh.
  split; [done|].
  pose proof (reachable_countdown_needs_running w Hw) as Hrun.
  unfold countdown_needs_running, is_running in Hrun. rewrite Hh in Hrun.
  specialize (Hrun ltac:(done)).
  apply andb_true_iff in Hrun as [Ha He]. split; [done|].
  by destruct (isEnded (competitionState w)).
Qed.

(** ** Handles and the timers they name *)

Lemma live_quiet c : modifies quiet c -> preserves_live c.
Proof.
  intros Hm w _ [Hp Hc]. specialize (Hm w).
  constructor; intros h;
    rewrite (keep_timers _ _ _ Hm), ?(keep_statusRefreshInterval _ _ _ Hm),
      ?(keep_countdownInterval _ _ _ Hm) by done; auto.
Qed.

Lemma live_seq c1 c2 :
  preserves_inv c1 -> preserves_live c1 -> preserves_live c2 ->
  preserves_live (c1 >>> c2).
Proof. intros Hi H1 H2 w Hw Hl. apply H2; [apply Hi | apply H1]; done. Qed.

Lemma live_cond (b : World -> bool) c1 c2 :
  preserves_live c1 -> preserves_live c2 ->
  preserves_live (fun w => if b w then c1 w else c2 w).
Proof. intros H1 H2 w Hw Hl. destruct (b w); auto. Qed.

(** A held handle is below the next handle to give out. *)
Lemma held_poll_lt w h :
  timers_inv w -> handles_live w -> statusRefreshInterval w = Some h ->
  (h < nextTimerId w)%positive.
Proof.
  intros [Hf _ _] [Hp _] Hh. destruct (Hp h Hh) as (t & Ht & _). eauto.
Qed.

Lemma held_countdown_lt w h :
  timers_inv w -> handles_live w -> countdownInterval w = Some h ->
  (h < nextTimerId w)%positive.
Proof.
  intros [Hf _ _] [_ Hc] Hh. destruct (Hc h Hh) as (t & Ht & _). eauto.
Qed.

Lemma live_setTimeout cb ms :
  preserves_live (fun w => snd (setTimeout cb ms w)).
Proof.
  intros w Hw Hl. constructor; simpl; intros h Hh.
  - pose proof (held_poll_lt w h Hw Hl Hh).
    destruct (live_poll w Hl h Hh) as (t & Ht & Hrest).
    exists t. split; [|done]. rewrite lookup_insert_ne; [done|lia].
  - pose proof (held_countdown_lt w h Hw Hl Hh).
    destruct (live_countdown w Hl h Hh) as (t & Ht & Hrest).
    exists t. split; [|done]. rewrite lookup_insert_ne; [done|lia].
Qed.

Lemma live_stopCountdown : preserves_live stopCountdown.
Proof.
  intros w Hw Hl. unfold stopCountdown.
  destruct (countdownInterval w) as [hc|] eqn:Hhc; [|done].
  constructor; simpl; intros h Hh; [|done].
  destruct (live_poll w Hl h Hh) as (t & Ht & Hcb & Hrest).
  destruct (live_countdown w Hl hc Hhc) as (tc & Htc & Hcbc & _).
  exists t. split; [|done]. rewrite lookup_delete_ne; [done|].
  intros ->. congruence.
Qed.

Lemma live_stopStatusRefresh : preserves_live stopStatusRefresh.
Proof.
  intros w Hw Hl. unfold stopStatusRefresh.
  destruct (statusRefreshInterval w) as [hp|] eqn:Hhp; [|done].
  constructor; simpl; intros h Hh; [done|].
  destruct (live_countdown w Hl h Hh) as (t & Ht & Hcb & Hrest).
  destruct (live_poll w Hl hp Hhp) as (tp & Htp & Hcbp & _).
  exists t. split; [|done]. rewrite lookup_delete_ne; [done|].
  intros ->. congruence.
Qed.

Lemma live_showControlMessage text type :
  preserves_live (showControlMessage text type).
Proof.
  unfold showControlMessage. apply live_seq.
  - apply preserves_inv_quiet. frame.
  - apply live_quiet. frame.
  - apply live_setTimeout.
Qed.

Lemma live_updateCountdown : preserves_live (updateCountdown Date_getTime).
Proof.
  intros w Hw Hl. unfold updateCountdown.
  destruct (endTime (competitionState w)) as [iso|];
    [|by apply live_quiet; [frame|..]].
  destruct (negb _ || negb _); [by apply live_quiet; [frame|..]|].
  destruct (Date_getTime iso) as [end_|];
    [|by apply live_quiet; [frame|..]].
  destruct (_ <? 0); [|by apply live_quiet; [frame|..]].
  revert w Hw Hl.
  apply live_seq; [|apply live_seq|apply live_quiet; frame].
  - repeat apply preserves_inv_seq;
      first [apply preserves_inv_stopCountdown | apply preserves_inv_quiet; frame].
  - apply preserves_inv_quiet. frame.
  - apply live_quiet. frame.
  - apply live_stopCountdown.
Qed.

Lemma live_startStatusRefresh : preserves_live startStatusRefresh.
Proof.
  intros w Hw Hl. unfold startStatusRefresh.
  pose proof (preserves_inv_stopStatusRefresh w Hw) as Hw1.
  pose proof (live_stopStatusRefresh w Hw Hl) as Hl1.
  pose proof (stopStatusRefresh_handle w) as Hnone.
  set (w1 := stopStatusRefresh w) in *.
  constructor; simpl; intros h Hh.
  - simplify_eq. eexists. split; [apply lookup_insert_eq|done].
  - pose proof (held_countdown_lt w1 h Hw1 Hl1 Hh).
    destruct (live_countdown w1 Hl1 h Hh) as (t & Ht & Hrest).
    exists t. split; [|done]. rewrite lookup_insert_ne; [done|lia].
Qed.

Lemma live_startCountdown : preserves_live (startCountdown Date_getTime).
Proof.
  intros w Hw Hl. unfold startCountdown.
  assert (Hw1 : timers_inv (updateCountdown Date_getTime (stopCountdown w)))
    by by apply preserves_inv_updateCountdown, preserves_inv_stopCountdown.
  assert (Hl1 : handles_live (updateCountdown Date_getTime (stopCountdown w))).
  { apply live_updateCountdown; [by apply preserves_inv_stopCountdown|].
    by apply live_stopCountdown. }
  set (w1 := updateCountdown Date_getTime (stopCountdown w)) in *.
  constructor; simpl; intros h Hh.
  - pose proof (held_poll_lt w1 h Hw1 Hl1 Hh).
    destruct (live_poll w1 Hl1 h Hh) as (t & Ht & Hrest).
    exists t. split; [|done]. rewrite lookup_insert_ne; [done|lia].
  - simplify_eq. eexists. split; [apply lookup_insert_eq|done].
Qed.

Lemma live_rearm w h t :
  timers w !! h = Some t -> handles_live w -> handles_live (rearm h t w).
Proof.
  intros Ht [Hp Hc]. unfold rearm. destruct (repeating t) eqn:Hrep.
  - constructor; simpl; intros h' Hh'.
    + destruct (Hp h' Hh') as (t' & Ht' & Hcb & Hd & Hr).
      destruct (decide (h' = h)) as [->|Hne].
      * simplify_eq. eexists. split; [apply lookup_insert_eq|done].
      * exists t'. by rewrite lookup_insert_ne.
    + destruct (Hc h' Hh') as (t' & Ht' & Hcb & Hd & Hr).
      destruct (decide (h' = h)) as [->|Hne].
      * simplify_eq. eexists. split; [apply lookup_insert_eq|done].
      * exists t'. by rewrite lookup_insert_ne.
  - constructor; simpl; intros h' Hh'.
    + destruct (Hp h' Hh') as (t' & Ht' & Hcb & Hd & Hr).
      exists t'. split; [|done]. rewrite lookup_delete_ne; [done|].
      intros ->. congruence.
    + destruct (Hc h' Hh') as (t' & Ht' & Hcb & Hd & Hr).
      exists t'. split; [|done]. rewrite lookup_delete_ne; [done|].
      intros ->. congruence.
Qed.

Create HintDb live discriminated.

#[local] Hint Resolve
  live_stopCountdown live_stopStatusRefresh live_showControlMessage
  live_updateCountdown live_startStatusRefresh live_startCountdown : live.

(** Held handles through a composed command. *)
Ltac live_tac :=
  lazymatch goal with
  | |- preserves_live (_ >>> _) => apply live_seq; [inv_tac | live_tac | live_tac]
  | |- preserves_live (if ?b then _ else _) => destruct b; live_tac
  | |- preserves_live _ =>
      first [solve [eauto with live] | apply live_quiet; frame]
  | |- handles_live (?c ?w) =>
      let H := fresh in
      enough (H : preserves_live c) by (apply H; assumption); live_tac
  end.

Lemma live_handleLogout : preserves_live handleLogout.
Proof. unfold handleLogout. live_tac. Qed.

Lemma live_handleLogin : preserves_live handleLogin.
Proof. intros w Hw Hl. unfold handleLogin. destruct (negb _); live_tac. Qed.

Lemma live_handleLogin_response r : preserves_live (handleLogin_response r).
Proof. unfold handleLogin_response. destruct r as [|status]; live_tac. Qed.

Lemma live_verifyAuthentication_response r :
  preserves_live (verifyAuthentication_response r).
Proof. unfold verifyAuthentication_response. destruct r as [|status]; live_tac. Qed.

#[local] Hint Resolve live_handleLogout : live.

Lemma live_handleStartCompetition durationDays confirmed :
  preserves_live (handleStartCompetition durationDays confirmed).
Proof.
  intros w Hw Hl. unfold handleStartCompetition.
  destruct (negb (isAuthenticated w)); [done|]. cbv zeta.
  destruct (negb confirmed); [live_tac|].
  match goal with
  | |- handles_live (?c (confirm ?text w)) =>
      apply (live_seq (confirm text) c); [inv_tac | live_tac | live_tac | done..]
  end.
Qed.

Lemma live_handleStartCompetition_catch :
  preserves_live handleStartCompetition_catch.
Proof. unfold handleStartCompetition_catch. live_tac. Qed.

#[local] Hint Resolve live_handleStartCompetition_catch : live.

Lemma live_handleStartCompetition_response rid durationText r :
  preserves_live (handleStartCompetition_response rid durationText r).
Proof. unfold handleStartCompetition_response. destruct r; live_tac. Qed.

Lemma live_handleStartCompetition_json durationText j :
  preserves_live (handleStartCompetition_json durationText j).
Proof. unfold handleStartCompetition_json. destruct j as [|data]; live_tac. Qed.

Lemma live_handleResetCompetition confirmed :
  preserves_live (handleResetCompetition confirmed).
Proof.
  intros w Hw Hl. unfold handleResetCompetition.
  destruct (negb (isAuthenticated w)); [done|]. cbv zeta.
  destruct (negb confirmed); [live_tac|].
  match goal with
  | |- handles_live (?c (confirm ?text w)) =>
      apply (live_seq (confirm text) c); [inv_tac | live_tac | live_tac | done..]
  end.
Qed.

Lemma live_handleResetCompetition_catch :
  preserves_live handleResetCompetition_catch.
Proof.
  unfold handleResetCompetition_catch, handleResetCompetition_finally. live_tac.
Qed.

#[local] Hint Resolve live_handleResetCompetition_catch : live.

Lemma live_handleResetCompetition_response rid r :
  preserves_live (handleResetCompetition_response rid r).
Proof. unfold handleResetCompetition_response. destruct r; live_tac. Qed.

Lemma live_handleResetCompetition_json j :
  preserves_live (handleResetCompetition_json j).
Proof.
  unfold handleResetCompetition_json, handleResetCompetition_finally.
  destruct j as [|data]; live_tac.
Qed.

Lemma live_fetchStatus_response rid r :
  preserves_live (fetchStatus_response rid r).
Proof.
  unfold fetchStatus_response, fetchStatus_catch.
  destruct r as [|status]; live_tac.
Qed.

Lemma live_fetchStatus_json j :
  preserves_live (fetchStatus_json Date_getTime Date_toLocaleString j).
Proof.
  unfold fetchStatus_json, fetchStatus_catch.
  destruct j as [|data]; [live_tac|].
  destruct (competition data) as [c|]; [|live_tac].
  destruct (success data); [|live_tac].
  apply live_seq; [|apply live_seq|live_tac].
  - apply preserves_inv_seq; [inv_tac|].
    apply (preserves_inv_cond
             (fun w => isActive (competitionState w)
                       && negb (isEnded (competitionState w))));
      inv_tac.
  - inv_tac.
  - live_tac.
  - apply (live_cond
             (fun w => isActive (competitionState w)
                       && negb (isEnded (competitionState w))));
      live_tac.
Qed.

Lemma live_run_callback cb : preserves_live (run_callback Date_getTime cb).
Proof. destruct cb; simpl; live_tac. Qed.

Lemma handles_live_init page storage t0 :
  handles_live (init (boot page storage t0)).
Proof.
  constructor; intros h Hh.
  - rewrite (keep_statusRefreshInterval _ _ _ (modifies_init _)) in Hh by done.
    discriminate Hh.
  - rewrite (keep_countdownInterval _ _ _ (modifies_init _)) in Hh by done.
    discriminate Hh.
Qed.

Lemma step_handles_live ev w w' :
  step Date_getTime Date_toLocaleString ev w = Some w' ->
  timers_inv w -> handles_live w -> handles_live w'.
Proof.
  intros Hstep Hw Hl. destruct ev; cbn [step] in Hstep.
  - simplify_eq. live_tac.
  - simplify_eq. by apply live_handleLogin.
  - destruct (disabled _); simplify_eq. by apply live_handleStartCompetition.
  - destruct (disabled _); simplify_eq. by apply live_handleResetCompetition.
  - simplify_eq. by apply live_handleLogout.
  - destruct (_ <? 0); simplify_eq. destruct Hl. by constructor.
  - destruct (timers w !! h) as [t|] eqn:Ht; [|done].
    destruct (due t <=? clock w); simplify_eq.
    apply live_run_callback; [by apply preserves_inv_rearm|by apply live_rearm].
  - assert (Htake : timers_inv (take_pending rid w)) by inv_tac.
    assert (Hltake : handles_live (take_pending rid w))
      by (destruct Hl; by constructor).
    destruct (pending w !! rid) as [[]|]; simplify_eq.
    + by apply live_handleLogin_response.
    + by apply live_verifyAuthentication_response.
    + by apply live_handleStartCompetition_response.
    + by apply live_handleResetCompetition_response.
    + by apply live_fetchStatus_response.
  - assert (Htake : timers_inv (take_pending rid w)) by inv_tac.
    assert (Hltake : handles_live (take_pending rid w))
      by (destruct Hl; by constructor).
    destruct (pending w !! rid) as [[]|]; simplify_eq.
    + by apply live_handleStartCompetition_json.
    + by apply live_handleResetCompetition_json.
    + by apply live_fetchStatus_json.
  - simplify_eq. live_tac.
Qed.

Lemma reachable_handles_live w :
  reachable Date_getTime Date_toLocaleString w -> handles_live w.
Proof.
  induction 1 as [page storage t0 | w ev w' Hw IH Hstep].
  - apply handles_live_init.
  - apply (step_handles_live ev w w'); [done| |done].
    by apply reachable_timers_inv.
Qed.

(** X12: in every state the panel can reach, a handle that is not null
    names a live timer: [statusRefreshInterval] a repeating timer that runs
    [fetchStatus] every 30000 ms, the only live poll timer;
    [countdownInterval] a repeating timer that runs [updateCountdown] every
    1000 ms, the only live countdown timer.  No handle dangles, so every
    [clearInterval] of the panel clears the timer it means to clear. *)
Theorem held_handles_name_live_timers (w : World) :
  reachable Date_getTime Date_toLocaleString w ->
  (forall h, statusRefreshInterval w = Some h ->
     (exists t, timers w !! h = Some t
                /\ callback t = CbFetchStatus
                /\ delay t = 30000
                /\ repeating t = true)
     /\ count_live CbFetchStatus w = 1%nat)
  /\ (forall h, countdownInterval w = Some h ->
        (exists t, timers w !! h = Some t
                   /\ callback t = CbUpdateCountdown
                   /\ delay t = 1000
                   /\ repeating t = true)
        /\ count_live CbUpdateCountdown w = 1%nat).
Proof.
  intros Hw. pose proof (reachable_timers_inv w Hw) as Hinv.
  destruct (reachable_handles_live w Hw) as [Hp Hc]. split; intros h Hh.
  - destruct (Hp h Hh) as (t & Ht & Hcb & Hrest). split; [by exists t|].
    by apply (count_live_poll_held w h t).
  - destruct (Hc h Hh) as (t & Ht & Hcb & Hrest). split; [by exists t|].
    by apply (count_live_countdown_held w h t).
Qed.

(** ** Starting and resetting: the other ways they end *)

Lemma showControlMessage_shows text type w :
  textContent (elements (showControlMessage text type w) El.controlMessage)
  = text
  /\ classList (elements (showControlMessage text type w) El.controlMessage)
     = ["message"; "show"; type].
Proof. split; reflexivity. Qed.

Lemma updateButtonStates_follow w :
  buttons_follow (competitionState w) (updateButtonStates w).
Proof.
  split; [intros b; apply updateButtonStates_start
         | apply updateButtonStates_reset].
Qed.

(** X13: when the confirmation dialog is declined, for a start as for a
    reset, nothing happens beyond the dialog having been shown: no request is
    sent, no button is disabled, no message appears, no timer is set. *)
Theorem declined_confirmation_changes_nothing (w : World) (durationDays : Z) :
  agree_outside [F_dialogs] w (handleStartCompetition durationDays false w)
  /\ agree_outside [F_dialogs] w (handleResetCompetition false w).
Proof.
  split.
  - unfold handleStartCompetition.
    destruct (negb (isAuthenticated w)); [apply agree_refl|]. simpl. frame.
  - unfold handleResetCompetition.
    destruct (negb (isAuthenticated w)); [apply agree_refl|]. simpl. frame.
Qed.

Lemma failed_start_catch w :
  let w' := handleStartCompetition_catch w in
  shown_message w' El.controlMessage
    "❌ Failed to start competition. Check console."
  /\ buttons_follow (competitionState w) w'
  /\ agree_outside [F_console; F_elements; F_timers; F_nextTimerId] w w'.
Proof.
  cbv zeta. split; [|split].
  - unfold handleStartCompetition_catch, andThen, shown_message.
    rewrite updateButtonStates_elements_other
      by (rewrite !not_elem_of_cons; repeat split; try done;
          apply not_elem_of_nil).
    split; [reflexivity|].
    rewrite (proj2 (showControlMessage_shows _ _ _)).
    rewrite !elem_of_cons. auto.
  - unfold handleStartCompetition_catch, andThen.
    assert (competitionState w
            = competitionState
                (showControlMessage
                   "❌ Failed to start competition. Check console." "error"
                   (console_error "Start error:" w))) as ->
        by (by peel keep_competitionState).
    apply updateButtonStates_follow.
  - apply modifies_handleStartCompetition_catch.
Qed.

(** X14: a start that fails (the fetch fails, the body cannot be read, or
    the body says [success: false]) shows an error message, the server's own
    in the last case, and sets the four buttons back to what the last known
    competition state asks for; it sends nothing and leaves the competition
    state, the session and the countdown as they were. *)
Theorem failed_start_restores_buttons (w : World) (durationText : string) :
  (forall rid,
     let w' :=
       handleStartCompetition_response rid durationText NetworkError w in
     shown_message w' El.controlMessage
       "❌ Failed to start competition. Check console."
     /\ buttons_follow (competitionState w) w'
     /\ agree_outside [F_console; F_elements; F_timers; F_nextTimerId] w w')
  /\ (let w' := handleStartCompetition_json durationText JsonThrows w in
      shown_message w' El.controlMessage
        "❌ Failed to start competition. Check console."
      /\ buttons_follow (competitionState w) w'
      /\ agree_outside [F_console; F_elements; F_timers; F_nextTimerId] w w')
  /\ (forall data,
        success data = false ->
        let w' :=
          handleStartCompetition_json durationText (JsonValue data) w in
        shown_message w' El.controlMessage
          ("❌ " +:+ Js.template (message data))
        /\ buttons_follow (competitionState w) w'
        /\ agree_outside [F_elements; F_timers; F_nextTimerId] w w').
Proof.
  split; [|split].
  - intros rid. apply failed_start_catch.
  - apply failed_start_catch.
  - intros data Hs w'. subst w'. unfold handleStartCompetition_json.
    rewrite Hs. unfold andThen. split; [|split].
    + unfold shown_message.
      rewrite updateButtonStates_elements_other
        by (rewrite !not_elem_of_cons; repeat split; try done;
            apply not_elem_of_nil).
      split; [reflexivity|].
      rewrite (proj2 (showControlMessage_shows _ _ _)).
      rewrite !elem_of_cons. auto.
    + assert (competitionState w
              = competitionState
                  (showControlMessage ("❌ " +:+ Js.template (message data))
                     "error" w)) as ->
          by (by peel keep_competitionState).
      apply updateButtonStates_follow.
    + apply agree_trans
        with (w2 := showControlMessage ("❌ " +:+ Js.template (message data))
                      "error" w); frame.
Qed.

(** X15: a start or a reset that the server accepts shows its success
    message and calls [fetchStatus] once: one status request with the current
    key goes out when the panel is authenticated.  The start buttons are not
    touched by the accepted start (they stay as the click left them until
    the status answer arrives); the accepted reset leaves its button
    enabled. *)
Theorem accepted_action_refetches_status
    (w : World) (durationText : string) (data : Data) :
  success data = true ->
  (let w' := handleStartCompetition_json durationText (JsonValue data) w in
   shown_message w' El.controlMessage
     ("✅ " +:+ durationText +:+ " competition started successfully!")
   /\ requests w'
      = (if isAuthenticated w
         then (requests w ++ [status_request (adminApiKey w)])%list
         else requests w)
   /\ (forall e, e <> El.controlMessage -> elements w' e = elements w e))
  /\ (let w' := handleResetCompetition_json (JsonValue data) w in
      shown_message w' El.controlMessage "✅ Competition reset successfully!"
      /\ requests w'
         = (if isAuthenticated w
            then (requests w ++ [status_request (adminApiKey w)])%list
            else requests w)
      /\ disabled (elements w' El.resetBtn) = false).
Proof.
  intros Hs. split.
  - cbv zeta. unfold handleStartCompetition_json. rewrite Hs. unfold andThen.
    split; [|split].
    + unfold shown_message.
      rewrite (keep_elements _ _ _ (modifies_fetchStatus _)) by done.
      split; [reflexivity|].
      rewrite (proj2 (showControlMessage_shows _ _ _)).
      rewrite !elem_of_cons. auto.
    + rewrite fetchStatus_requests.
      by peel keep_isAuthenticated; peel keep_adminApiKey; peel keep_requests.
    + intros e He.
      rewrite (keep_elements _ _ _ (modifies_fetchStatus _)) by done.
      by apply showControlMessage_other.
  - cbv zeta. unfold handleResetCompetition_json. rewrite Hs.
    unfold andThen, handleResetCompetition_finally. split; [|split].
    + unfold shown_message, set_disabled.
      rewrite update_element_other by done.
      rewrite (keep_elements _ _ _ (modifies_fetchStatus _)) by done.
      split; [reflexivity|].
      rewrite (proj2 (showControlMessage_shows _ _ _)).
      rewrite !elem_of_cons. auto.
    + peel keep_requests. rewrite fetchStatus_requests.
      by peel keep_isAuthenticated; peel keep_adminApiKey; peel keep_requests.
    + apply set_disabled_same.
Qed.

(** ** Control messages *)

(** X16: a control message replaces the text and the classes of the
    message element (classes message, show and the type), and sets a timeout
    of its own for 5000 ms without clearing any timer already set.  That
    timeout cannot fire before 5000 ms have passed; when it fires it removes
    the class show and is gone. *)
Theorem control_message_hides_after_5s (w : World) (text type : string) :
  let w' := showControlMessage text type w in
  let h := nextTimerId w in
  textContent (elements w' El.controlMessage) = text
  /\ classList (elements w' El.controlMessage) = ["message"; "show"; type]
  /\ timers w' !! h
     = Some {| callback := CbHideControlMessage; delay := 5000;
               repeating := false; due := clock w + 5000 |}
  /\ (forall h', h' <> h -> timers w' !! h' = timers w !! h')
  /\ (forall w'',
        timers w'' !! h = timers w' !! h ->
        if clock w'' <? clock w + 5000 then
          step Date_getTime Date_toLocaleString (Fire h) w'' = None
        else
          exists w3,
            step Date_getTime Date_toLocaleString (Fire h) w'' = Some w3
            /\ ("show" ∉ classList (elements w3 El.controlMessage))
            /\ timers w3 !! h = None).
Proof.
  intros w' h.
  assert (Ht : timers w' !! h
               = Some {| callback := CbHideControlMessage; delay := 5000;
                         repeating := false; due := clock w + 5000 |})
    by apply lookup_insert_eq.
  split; [reflexivity|split; [reflexivity|split; [exact Ht|split]]].
  - intros h' Hne. subst w'. unfold showControlMessage, andThen. simpl.
    by rewrite lookup_insert_ne.
  - intros w'' Hsame. cbn [step]. rewrite Hsame, Ht. cbn [due callback].
    destruct (clock w'' <? clock w + 5000) eqn:Hlt.
    + apply Z.ltb_lt in Hlt.
      destruct (_ <=? _) eqn:Hle; [apply Z.leb_le in Hle; lia|done].
    + apply Z.ltb_ge in Hlt.
      destruct (_ <=? _) eqn:Hle; [|apply Z.leb_gt in Hle; lia].
      eexists. split; [reflexivity|]. split.
      * apply classList_remove_out.
      * cbn [run_callback]. unfold hideControlMessage.
        rewrite (keep_timers _ _ _ (modifies_classList_remove _ _ _)) by done.
        apply lookup_delete_eq.
Qed.

(** ** The requests the panel sends *)

Lemma sends_nothing P F c :
  modifies F c -> among F_requests F = false -> sends_only P c.
Proof.
  intros Hm Hout w. exists []. split; [|constructor].
  rewrite (keep_requests _ _ _ (Hm w) Hout). by rewrite app_nil_r.
Qed.

Lemma sends_seq P c1 c2 :
  sends_only P c1 -> sends_only P c2 -> sends_only P (c1 >>> c2).
Proof.
  intros H1 H2 w. destruct (H1 w) as (n1 & E1 & F1).
  destruct (H2 (c1 w)) as (n2 & E2 & F2). exists (n1 ++ n2)%list. split.
  - unfold andThen. by rewrite E2, E1, app_assoc.
  - by apply Forall_app.
Qed.


Lemma sends_status_fetch (key : World -> string) k :
  sends_only is_status_request (fun w => fetch (status_request (key w)) k w).
Proof.
  intros w. exists [status_request (key w)]. split; [done|].
  repeat constructor. by exists (key w).
Qed.

Lemma sends_fetchStatus : sends_only is_status_request fetchStatus.
Proof.
  intros w. unfold fetchStatus. destruct (negb (isAuthenticated w)).
  - exists []. split; [by rewrite app_nil_r | constructor].
  - apply (sends_status_fetch adminApiKey).
Qed.

Create HintDb sends discriminated.

#[local] Hint Resolve sends_fetchStatus sends_status_fetch : sends.

(** The requests of a composed command. *)
Ltac sends_tac :=
  lazymatch goal with
  | |- sends_only _ (_ >>> _) => apply sends_seq; sends_tac
  | |- sends_only _ (if ?b then _ else _) => destruct b; sends_tac
  | |- sends_only _ skip => apply (sends_nothing _ [] skip (modifies_skip _) eq_refl)
  | |- sends_only _ _ =>
      first [ solve [eauto with sends]
            | eapply sends_nothing; [solve [eauto with frame] | reflexivity] ]
  end.

Lemma sends_updateCountdown :
  sends_only is_status_request (updateCountdown Date_getTime).
Proof.
  intros w. unfold updateCountdown.
  destruct (endTime (competitionState w)) as [iso|];
    [|by apply (sends_nothing _ _ _ (modifies_set_textContent _ _))].
  destruct (negb _ || negb _);
    [by apply (sends_nothing _ _ _ (modifies_set_textContent _ _))|].
  destruct (Date_getTime iso) as [end_|].
  - destruct (_ <? 0); revert w.
    + change (sends_only is_status_request
                (set_textContent El.adminDays "00"
                 >>> set_textContent El.adminHours "00"
                 >>> set_textContent El.adminMinutes "00"
                 >>> set_textContent El.adminSeconds "00"
                 >>> stopCountdown >>> fetchStatus)).
      sends_tac.
    + apply (sends_nothing _ [F_elements]); [|done]. intros w. frame.
  - revert w. apply (sends_nothing _ [F_elements]); [|done]. intros w. frame.
Qed.

Lemma sends_startCountdown :
  sends_only is_status_request (startCountdown Date_getTime).
Proof.
  intros w. unfold startCountdown. simpl.
  destruct (sends_updateCountdown (stopCountdown w)) as (new & E & Hall).
  exists new. split; [|done].
  by rewrite E, (keep_requests _ _ _ (modifies_stopCountdown w)).
Qed.

#[local] Hint Resolve sends_updateCountdown sends_startCountdown : sends.











(** ** The stored key across a reload *)


Lemma init_without_key page storage t0 :
  storage !! "adminApiKey" = None ->
  let w := init (boot page storage t0) in
  isAuthenticated w = false /\ adminApiKey w = "" /\ requests w = []
  /\ pending w = ∅.
Proof.
  intros Hk. cbv zeta. unfold init, andThen, console_log. simpl.
  by rewrite Hk.
Qed.



(** X19: after a logout, and after the stored key has been refused (any
    answer to the verification request that is not 2xx), a reload of the page
    finds no key: [init] sends no request, leaves the key in memory empty and
    the panel unauthenticated. *)
Theorem forgotten_key_is_not_restored
    (w w' : World) (page : El.id -> Element) (t0 : Z) :
  step Date_getTime Date_toLocaleString ClickLogout w = Some w'
  \/ (exists rid status,
        pending w !! rid = Some verifyAuthentication_await_fetch
        /\ ~ 200 <= status <= 299
        /\ step Date_getTime Date_toLocaleString
             (Answer rid (Response status)) w = Some w') ->
  let w2 := init (boot page (sessionStorage w') t0) in
  isAuthenticated w2 = false /\ adminApiKey w2 = "" /\ requests w2 = []
  /\ pending w2 = ∅.
Proof.
  intros H. apply init_without_key.
  destruct H as [H | (rid & status & Hp & Hst & H)]; cbn [step] in H.
  - simplify_eq. unfold handleLogout, andThen.
    peel keep_sessionStorage. unfold sessionStorage_removeItem. simpl.
    apply lookup_delete_eq.
  - rewrite Hp in H. simplify_eq. unfold verifyAuthentication_response.
    assert (Hok : ok status = false).
    { destruct (ok status) eqn:E; [|done]. by apply ok_spec in E. }
    rewrite Hok. unfold andThen, sessionStorage_removeItem. simpl.
    apply lookup_delete_eq.
Qed.

(** ** A start in flight *)

Lemma handleStartCompetition_confirmed w durationDays :
  isAuthenticated w = true ->
  let durationText := durationText_of durationDays in
  let w' := handleStartCompetition durationDays true w in
  (forall b, disabled (elements w' (button_of b)) = true)
  /\ shown_message w' El.controlMessage
       ("Starting " +:+ durationText +:+ " competition...")
  /\ elements w' El.resetBtn = elements w El.resetBtn
  /\ pending w' !! length (requests w)
     = Some (handleStartCompetition_await_fetch durationText).
Proof.
  intros Ha. cbv zeta. unfold handleStartCompetition. rewrite Ha. simpl.
  unfold andThen. split; [|split; [|split]].
  - by intros [].
  - split; [reflexivity|]. simpl. rewrite !elem_of_cons. auto.
  - reflexivity.
  - unfold fetch. simpl. by rewrite lookup_insert_eq.
Qed.

(** X20: a confirmed click on a start button of an authenticated panel
    disables the three start buttons at once, before the request is answered:
    in the state the click leaves no start button can be clicked, so the
    request cannot be sent twice from there.  The message names the duration
    (1 week, 2 weeks or 1 month), the reset button is left as it was, and the
    handler waits for the answer to its request. *)
Theorem confirmed_start_locks_start_buttons (w : World) (b : StartButton) :
  isAuthenticated w = true ->
  disabled (elements w (button_of b)) = false ->
  let durationText :=
    match b with
    | Start7 => "1 week" | Start14 => "2 weeks" | Start30 => "1 month"
    end in
  exists w',
    step Date_getTime Date_toLocaleString (ClickStart b true) w = Some w'
    /\ (forall b' confirmed,
          step Date_getTime Date_toLocaleString (ClickStart b' confirmed) w'
          = None)
    /\ shown_message w' El.controlMessage
         ("Starting " +:+ durationText +:+ " competition...")
    /\ elements w' El.resetBtn = elements w El.resetBtn
    /\ pending w' !! length (requests w)
       = Some (handleStartCompetition_await_fetch durationText).
Proof.
  intros Ha Hen durationText.
  destruct (handleStartCompetition_confirmed w (days_of b) Ha)
    as (Hdis & Hmsg & Hreset & Hpend).
  assert (Htext : durationText_of (days_of b) = durationText)
    by (by destruct b).
  rewrite Htext in Hmsg, Hpend.
  eexists. split; [cbn [step]; by rewrite Hen|].
  split; [|by repeat split; try apply Hmsg].
  intros b' confirmed. cbn [step]. by rewrite Hdis.
Qed.

End Properties.

(** * The properties on a concrete page *)

Lemma after_reachable evs :
  reachable sample_getTime sample_toLocaleString (after evs).
Proof.
  unfold after, sample_run.
  destruct (run sample_getTime sample_toLocaleString evs fresh_tab)
    as [w|] eqn:Hrun.
  - eapply run_reachable; [|exact Hrun]. apply reachable_init.
  - apply reachable_init.
Qed.

(** The scenario of the spec: the end time 3661000 ms ahead shows as
    00:01:01:01. *)
Example countdown_3661000_ahead :
  countdown_fields (after ([Elapse 1338000] ++ watching))
  = ["00"; "01"; "01"; "01"].
Proof. vm_compute. reflexivity. Qed.


(** ** C1 *)

(** Logged in with the poller and the countdown running, a status answer
    of 401 logs the panel out. *)
Lemma status_fetch_401_403_logs_out_witness :
  let w' := fetchStatus_response 5 (Response 401) (after watching) in
  isAuthenticated w' = false
  /\ credential_cleared w'
  /\ (statusRefreshInterval w' = None /\ countdownInterval w' = None)
  /\ (count_live CbFetchStatus w' = 0%nat
      /\ count_live CbUpdateCountdown w' = 0%nat)
  /\ (~ hidden w' El.loginSection /\ hidden w' El.adminControls).
Proof.
  apply (status_fetch_401_403_logs_out sample_getTime sample_toLocaleString
           (after watching) 5%nat 401).
  - apply after_reachable.
  - left. reflexivity.
Defined.

(** The claim fails for start and reset: the administrator is logged in,
    confirms the start of a week (or a reset), the server answers 401 (or
    403) with a body that refuses; once the answer is handled the panel is
    still logged in, the key is still in [adminApiKey] and in sessionStorage,
    and the poller still runs. *)
Lemma start_and_reset_answered_401_403_stay_logged_in :
  (happens start_rejected = true
   /\ isAuthenticated (after start_rejected) = true
   /\ adminApiKey (after start_rejected) = "secret"
   /\ sessionStorage (after start_rejected) !! "adminApiKey" = Some "secret"
   /\ statusRefreshInterval (after start_rejected) = Some 1%positive
   /\ callback <$> timers (after start_rejected) !! 1%positive
      = Some CbFetchStatus)
  /\ (happens reset_rejected = true
      /\ isAuthenticated (after reset_rejected) = true
      /\ adminApiKey (after reset_rejected) = "secret"
      /\ sessionStorage (after reset_rejected) !! "adminApiKey" = Some "secret"
      /\ statusRefreshInterval (after reset_rejected) = Some 1%positive
      /\ callback <$> timers (after reset_rejected) !! 1%positive
         = Some CbFetchStatus).
Proof. vm_compute. repeat split. Qed.

(** ** C2 *)

(** 4999 seconds before the end: 0 days, 1 hour, 23 minutes, 19 seconds. *)
Lemma countdown_fields_decompose_witness :
  let D := 5000000 - clock (after watching) in
  let w' := updateCountdown sample_getTime (after watching) in
  exists days hours minutes seconds,
    days * 86400 + hours * 3600 + minutes * 60 + seconds = D / 1000
    /\ (0 <= days /\ 0 <= hours < 24 /\ 0 <= minutes < 60 /\ 0 <= seconds < 60)
    /\ countdown_fields w'
       = [pad2 days; pad2 hours; pad2 minutes; pad2 seconds]
    /\ Forall2 (zero_padded 2) [days; hours; minutes; seconds]
         (countdown_fields w')
    /\ Forall (fun s => String.length s = 2%nat)
         [pad2 hours; pad2 minutes; pad2 seconds].
Proof.
  apply (countdown_fields_decompose sample_getTime (after watching)
           "1970-01-01T01:23:20.000Z" 5000000);
    vm_compute; first [reflexivity | discriminate].
Defined.

(** ** C3 *)

Lemma buttons_after_status_update_witness :
  let w' :=
    fetchStatus_json sample_getTime sample_toLocaleString (status_of running)
      (after log_in) in
  competitionState w' = competitionState_of running
  /\ (forall b : StartButton,
        disabled (elements w' (button_of b)) = true
        <-> json_isActive running && negb (json_isEnded running) = true)
  /\ (disabled (elements w' El.resetBtn) = true
      <-> negb (json_isActive running) && negb (json_isEnded running) = true).
Proof.
  apply (buttons_after_status_update sample_getTime sample_toLocaleString
           (after log_in)
           {| success := true; message := None; competition := Some running |}
           running); reflexivity.
Defined.

(** ** C4 *)

(** Logged in, one second after the end. *)
Lemma expired_countdown_tick_witness :
  let w := after expired in
  let w' := updateCountdown sample_getTime w in
  countdown_fields w' = ["00"; "00"; "00"; "00"]
  /\ (countdownInterval w' = None
      /\ count_live CbUpdateCountdown w' = 0%nat)
  /\ requests w'
     = if isAuthenticated w
       then (requests w ++ [status_request (adminApiKey w)])%list
       else requests w.
Proof.
  apply (expired_countdown_tick sample_getTime sample_toLocaleString
           (after expired) "1970-01-01T01:23:20.000Z" 5000000);
    [apply after_reachable | vm_compute; reflexivity ..].
Defined.

(** The claim fails on the number of refetches, both ways.

    None: the administrator logs out while the first status fetch is on its
    way, its answer starts the countdown (timer 2), and when that timer fires
    one second after the end of the competition (active, end time known,
    distance -1000) the fields are clamped and the timer stopped, but no
    status request goes out.

    Three for one crossing: the panel is logged in and the server goes on
    reporting the same competition as running.  The tick after the end sends
    request 2; its answer restarts the countdown, which sends request 3 at
    once and request 4 at its first tick, all for the same end time. *)
Lemma expired_tick_refetches_none_or_many :
  (let w := after logged_out_watching in
   let w' := after (logged_out_watching ++ [Fire 2%positive]) in
   happens (logged_out_watching ++ [Fire 2%positive]) = true
   /\ isActive (competitionState w) = true
   /\ endTime (competitionState w) = Some "1970-01-01T01:23:20.000Z"
   /\ sample_getTime "1970-01-01T01:23:20.000Z" = Some 5000000
   /\ 5000000 - clock w = -1000
   /\ callback <$> timers w !! 2%positive = Some CbUpdateCountdown
   /\ countdown_fields w' = ["00"; "00"; "00"; "00"]
   /\ countdownInterval w' = None
   /\ requests w' = requests w)
  /\ (let w := after expired in
      let w' := after expired_but_running in
      happens expired_but_running = true
      /\ isAuthenticated w = true
      /\ isActive (competitionState w) = true
      /\ 5000000 - clock w = -1000
      /\ competitionState w' = competitionState w
      /\ requests w'
         = (requests w
            ++ [status_request "secret"; status_request "secret";
                status_request "secret"])%list).
Proof. vm_compute. repeat split. Qed.

(** ** C5 *)

(** The stored key is checked: 200 lets the panel in, 500 does not. *)
Lemma stored_key_check_outcomes_witness :
  (let w' := verifyAuthentication_response (Response 200) stored_tab in
   isAuthenticated w' = true
   /\ adminApiKey w' = adminApiKey stored_tab
   /\ sessionStorage w' = sessionStorage stored_tab)
  /\ (let w' := verifyAuthentication_response (Response 500) stored_tab in
      isAuthenticated w' = isAuthenticated stored_tab
      /\ credential_cleared w').
Proof.
  destruct (stored_key_check_outcomes stored_tab) as (H2xx & Hother & _).
  split; [apply (H2xx 200) | apply (Hother 500)]; lia.
Defined.

(** The claim fails for a status that is neither 2xx nor 401 nor 403: the
    tab opens with a key in sessionStorage, the check of it (request 0) is
    answered 500, and the key is gone from sessionStorage and from
    [adminApiKey]. *)
Lemma stored_key_discarded_on_500 :
  let w := stored_tab in
  let w' := verifyAuthentication_response (Response 500) (take_pending 0 w) in
  sessionStorage w !! "adminApiKey" = Some "secret"
  /\ adminApiKey w = "secret"
  /\ pending w !! 0%nat = Some verifyAuthentication_await_fetch
  /\ isAuthenticated w' = false
  /\ sessionStorage w' !! "adminApiKey" = None
  /\ adminApiKey w' = "".
Proof. vm_compute. repeat split. Qed.

(** ** C6 *)

Lemma failed_login_stays_logged_out_witness :
  let w := after [Typed "secret"; Submit] in
  (let w' := handleLogin_response NetworkError w in
   isAuthenticated w' = isAuthenticated w
   /\ sessionStorage w' = sessionStorage w
   /\ shown_message w' El.loginError
        "Connection error. Is the backend running?"
   /\ requests w' = requests w)
  /\ (let w' := handleLogin_response (Response 500) w in
      isAuthenticated w' = isAuthenticated w
      /\ sessionStorage w' = sessionStorage w
      /\ shown_message w' El.loginError
           "Authentication failed. Please try again."
      /\ requests w' = requests w).
Proof.
  destruct (failed_login_stays_logged_out (after [Typed "secret"; Submit]))
    as (Hnet & Hother).
  split; [exact Hnet | apply (Hother 500); lia].
Defined.

(** The claim fails on the credential in memory and on the message: after
    a login with the password [secret] that ends in a network error the panel
    is logged out and the storage empty, but [adminApiKey] still holds
    [secret]; and when the answer is 500 instead, the message shown is not the
    connection error. *)
Lemma failed_login_keeps_key_in_memory :
  let w := after [Typed "secret"; Submit; Answer 0 NetworkError] in
  let w500 := after [Typed "secret"; Submit; Answer 0 (Response 500)] in
  happens [Typed "secret"; Submit; Answer 0 NetworkError] = true
  /\ isAuthenticated w = false
  /\ sessionStorage w !! "adminApiKey" = None
  /\ textContent (elements w El.loginError)
     = "Connection error. Is the backend running?"
  /\ adminApiKey w = "secret"
  /\ happens [Typed "secret"; Submit; Answer 0 (Response 500)] = true
  /\ textContent (elements w500 El.loginError)
     = "Authentication failed. Please try again."
  /\ adminApiKey w500 = "secret".
Proof. vm_compute. repeat split. Qed.

(** ** C7 *)


(** ** C8 *)


(** ** C9 *)

Lemma single_timer_of_each_kind_witness :
  let w := after watching in
  ((count_live CbFetchStatus w <= 1)%nat
   /\ (count_live CbUpdateCountdown w <= 1)%nat)
  /\ (count_live CbFetchStatus (startStatusRefresh w) = 1%nat
      /\ count_live CbFetchStatus (startStatusRefresh (startStatusRefresh w))
         = 1%nat)
  /\ (count_live CbUpdateCountdown (startCountdown sample_getTime w) = 1%nat
      /\ count_live CbUpdateCountdown
           (startCountdown sample_getTime (startCountdown sample_getTime w))
         = 1%nat)
  /\ (statusRefreshInterval (stopStatusRefresh w) = None
      /\ count_live CbFetchStatus (stopStatusRefresh w) = 0%nat)
  /\ (countdownInterval (stopCountdown w) = None
      /\ count_live CbUpdateCountdown (stopCountdown w) = 0%nat).
Proof.
  apply (single_timer_of_each_kind sample_getTime sample_toLocaleString
           (after watching)).
  apply after_reachable.
Defined.

(** ** C10 *)

Lemma unauthenticated_calls_do_nothing_witness :
  handleStartCompetition 7 true fresh_tab = fresh_tab
  /\ handleResetCompetition true fresh_tab = fresh_tab
  /\ fetchStatus fresh_tab = fresh_tab.
Proof.
  apply (unauthenticated_calls_do_nothing fresh_tab 7 true).
  vm_compute. reflexivity.
Defined.

(** * Further properties on the concrete page *)

(** An event that can happen leads to the state [default] picks. *)
Lemma sample_step_default (ev : Event) (w : World) :
  match sample_step ev w with Some _ => true | None => false end = true ->
  sample_step ev w = Some (default w (sample_step ev w)).
Proof. destruct (sample_step ev w); [reflexivity | discriminate]. Qed.

(** ** Login and logout *)

Lemma login_refused_witness :
  let w' := handleLogin_response (Response 401) fresh_tab in
  shown_message w' El.loginError "Invalid admin password"
  /\ agree_outside [F_elements] fresh_tab w'.
Proof. apply (login_refused fresh_tab 401). left. reflexivity. Defined.

(** Logged in with the poller and the countdown running. *)
Lemma logout_ends_the_session_witness :
  let w := after watching in
  let w' := handleLogout w in
  isAuthenticated w' = false
  /\ credential_cleared w'
  /\ (statusRefreshInterval w' = None /\ countdownInterval w' = None)
  /\ (count_live CbFetchStatus w' = 0%nat
      /\ count_live CbUpdateCountdown w' = 0%nat)
  /\ (~ hidden w' El.loginSection /\ hidden w' El.adminControls)
  /\ value (elements w' El.adminPassword) = ""
  /\ (pending w' = pending w
      /\ requests w' = requests w
      /\ competitionState w' = competitionState w).
Proof.
  apply (logout_ends_the_session sample_getTime sample_toLocaleString
           (after watching)).
  apply after_reachable.
Defined.

Lemma unload_stops_both_timers_witness :
  let w := after watching in
  let w' := (stopStatusRefresh >>> stopCountdown) w in
  (statusRefreshInterval w' = None /\ countdownInterval w' = None)
  /\ (count_live CbFetchStatus w' = 0%nat
      /\ count_live CbUpdateCountdown w' = 0%nat)
  /\ agree_outside [F_timers; F_statusRefreshInterval; F_countdownInterval]
       w w'.
Proof.
  apply (unload_stops_both_timers sample_getTime sample_toLocaleString
           (after watching)).
  - apply after_reachable.
  - reflexivity.
Defined.


(** The administrator logs out and reloads the page. *)
Lemma forgotten_key_is_not_restored_witness :
  let w2 :=
    init (boot sample_page (sessionStorage (handleLogout (after log_in))) 0) in
  isAuthenticated w2 = false /\ adminApiKey w2 = "" /\ requests w2 = []
  /\ pending w2 = ∅.
Proof.
  apply (forgotten_key_is_not_restored sample_getTime sample_toLocaleString
           (after log_in) (handleLogout (after log_in)) sample_page 0).
  left. reflexivity.
Defined.

(** ** Status *)

Lemma status_display_after_update_witness :
  let w' :=
    fetchStatus_json sample_getTime sample_toLocaleString (status_of running)
      (after log_in) in
  let cs := competitionState_of running in
  textContent (elements w' El.statusValue) = badge_text cs
  /\ classList (elements w' El.statusValue) = ["status-badge"; badge_class cs]
  /\ textContent (elements w' El.startTime)
     = formatDateTime sample_toLocaleString (json_startTime running)
  /\ textContent (elements w' El.endTime)
     = formatDateTime sample_toLocaleString (json_endTime running).
Proof.
  apply (status_display_after_update sample_getTime sample_toLocaleString
           (after log_in)
           {| success := true; message := None; competition := Some running |}
           running); reflexivity.
Defined.

Lemma countdown_follows_status_witness :
  let w := after log_in in
  let w' :=
    fetchStatus_json sample_getTime sample_toLocaleString (status_of running)
      w in
  if json_isActive running && negb (json_isEnded running) then
    countdownInterval w' = Some (nextTimerId w)
    /\ count_live CbUpdateCountdown w' = 1%nat
  else
    countdownInterval w' = None
    /\ count_live CbUpdateCountdown w' = 0%nat.
Proof.
  apply (countdown_follows_status sample_getTime sample_toLocaleString
           (after log_in)
           {| success := true; message := None; competition := Some running |}
           running); [apply after_reachable | reflexivity ..].
Defined.

(** 4999 seconds before the end: less than a day. *)
Lemma ending_class_marks_last_day_witness :
  let w := after watching in
  let w' := updateCountdown sample_getTime w in
  "ending" ∈ classList (elements w' El.countdown)
  <-> 5000000 - clock w < 86400000.
Proof.
  apply (ending_class_marks_last_day sample_getTime (after watching)
           "1970-01-01T01:23:20.000Z" 5000000);
    vm_compute; first [reflexivity | discriminate].
Defined.

(** ** Timers *)

(** The countdown ticks one second after it was started. *)
Lemma timers_leave_the_session_alone_witness :
  let w := after (watching ++ [Elapse 1000]) in
  let w' := default w (sample_step (Fire 2%positive) w) in
  agree_outside
    [F_elements; F_timers; F_countdownInterval; F_requests; F_pending] w w'.
Proof.
  apply (timers_leave_the_session_alone sample_getTime sample_toLocaleString
           (after (watching ++ [Elapse 1000]))
           (default (after (watching ++ [Elapse 1000]))
              (sample_step (Fire 2%positive)
                 (after (watching ++ [Elapse 1000]))))
           2%positive).
  apply sample_step_default. vm_compute. reflexivity.
Defined.

(** Logged in, then logged out. *)
Lemma no_poller_while_logged_out_witness :
  let w := after (log_in ++ [ClickLogout]) in
  statusRefreshInterval w = None /\ count_live CbFetchStatus w = 0%nat.
Proof.
  apply (no_poller_while_logged_out sample_getTime sample_toLocaleString
           (after (log_in ++ [ClickLogout]))).
  - apply after_reachable.
  - vm_compute. reflexivity.
Defined.

(** Timer 2 is the countdown of the running competition. *)
Lemma countdown_only_for_running_competition_witness :
  let w := after watching in
  countdownInterval w = Some 2%positive
  /\ isActive (competitionState w) = true
  /\ isEnded (competitionState w) = false.
Proof.
  apply (countdown_only_for_running_competition
           sample_getTime sample_toLocaleString (after watching) 2%positive
           {| callback := CbUpdateCountdown; delay := 1000;
              repeating := true; due := 2000 |}).
  - apply after_reachable.
  - vm_compute. reflexivity.
  - reflexivity.
Defined.

Lemma held_handles_name_live_timers_witness :
  let w := after watching in
  (forall h, statusRefreshInterval w = Some h ->
     (exists t, timers w !! h = Some t
                /\ callback t = CbFetchStatus
                /\ delay t = 30000
                /\ repeating t = true)
     /\ count_live CbFetchStatus w = 1%nat)
  /\ (forall h, countdownInterval w = Some h ->
        (exists t, timers w !! h = Some t
                   /\ callback t = CbUpdateCountdown
                   /\ delay t = 1000
                   /\ repeating t = true)
        /\ count_live CbUpdateCountdown w = 1%nat).
Proof.
  apply (held_handles_name_live_timers sample_getTime sample_toLocaleString
           (after watching)).
  apply after_reachable.
Defined.

(** ** Start and reset *)

Lemma accepted_action_refetches_status_witness :
  let w := after log_in in
  let data := {| success := true; message := None; competition := None |} in
  (let w' := handleStartCompetition_json "1 week" (JsonValue data) w in
   shown_message w' El.controlMessage
     ("✅ " +:+ "1 week" +:+ " competition started successfully!")
   /\ requests w'
      = (if isAuthenticated w
         then (requests w ++ [status_request (adminApiKey w)])%list
         else requests w)
   /\ (forall e, e <> El.controlMessage -> elements w' e = elements w e))
  /\ (let w' := handleResetCompetition_json (JsonValue data) w in
      shown_message w' El.controlMessage "✅ Competition reset successfully!"
      /\ requests w'
         = (if isAuthenticated w
            then (requests w ++ [status_request (adminApiKey w)])%list
            else requests w)
      /\ disabled (elements w' El.resetBtn) = false).
Proof.
  apply (accepted_action_refetches_status (after log_in) "1 week"
           {| success := true; message := None; competition := None |}).
  reflexivity.
Defined.


Lemma confirmed_start_locks_start_buttons_witness :
  let w := after log_in in
  exists w',
    sample_step (ClickStart Start14 true) w = Some w'
    /\ (forall b' confirmed, sample_step (ClickStart b' confirmed) w' = None)
    /\ shown_message w' El.controlMessage
         ("Starting " +:+ "2 weeks" +:+ " competition...")
    /\ elements w' El.resetBtn = elements w El.resetBtn
    /\ pending w' !! length (requests w)
       = Some (handleStartCompetition_await_fetch "2 weeks").
Proof.
  apply (confirmed_start_locks_start_buttons
           sample_getTime sample_toLocaleString (after log_in) Start14);
    vm_compute; reflexivity.
Defined.
